(** * monosize: the Markdown reporter

    A shallow embedding of
    [packages/monosize/src/reporters/markdownReporter.mts].

    Conventions of the embedding.
    - JavaScript strings are [string]s (the UTF-8 bytes of the source text);
      only concatenation and comparison of whole strings are used.
    - Sizes and deltas are byte counts, modelled as [Z]; the subtraction of
      the source is the subtraction of doubles: the exact difference,
      rounded to the nearest double ([JS.minus]).
    - A call of [fs.writeFile] either throws in the caller, before any
      write, or returns and reports to its callback later.
    - [console.log], [console.error], the call of [findPackageRoot] and the
      request to [fs.writeFile] are recorded as events, in program order;
      [throw] ends a computation with the events emitted so far.
    - The functions imported from files that are not part of this module
      ([formatBytes], [formatDeltaFactory], [getChangedEntriesInReport]) are
      section variables: every theorem holds for all of them. *)

From Stdlib Require Import String Ascii List ZArith Lia Bool DecimalString.
Import ListNotations.

Local Open Scope Z_scope.
Local Open Scope list_scope.
Local Open Scope string_scope.

(** ** JavaScript values used by the reporter *)

Module JS.

(** The double quote and the line feed, which a literal cannot hold. *)
Definition dquote : string := String (ascii_of_nat 34) EmptyString.
Definition LF : string := String (ascii_of_nat 10) EmptyString.

(** [Array.prototype.join] on an array of strings. *)
Fixpoint join (sep : string) (xs : list string) : string :=
  match xs with
  | [] => ""
  | x :: rest =>
      match rest with
      | [] => x
      | _ :: _ => x ++ sep ++ join sep rest
      end
  end.

(** [Array.prototype.push], returning the array after the call. *)
Definition push (xs : list string) (x : string) : list string :=
  (xs ++ [x])%list.

(** [xs.forEach(x => out.push(f x))]. *)
Definition forEach_push {A} (f : A -> string) (xs : list A) (out : list string)
  : list string :=
  fold_left (fun acc x => push acc (f x)) xs out.

(** Truthiness of a value of type [string | undefined]. *)
Definition truthy (v : option string) : bool :=
  match v with
  | None => false
  | Some s => negb (s =? "")
  end.

(** [s] occurs in [t] as a contiguous piece. *)
Definition includes (t s : string) : Prop :=
  exists a b, t = a ++ s ++ b.

(** [t] ends with [s]. *)
Definition endsWith (t s : string) : Prop :=
  exists a, t = a ++ s.

(** The double nearest to an integer: the 53 leading bits are kept and a
    tie goes to the even significand. *)
Definition toDouble (x : Z) : Z :=
  let m := Z.abs x in
  let drop := (Z.log2 m - 52)%Z in
  if (drop <=? 0)%Z then x
  else
    let q := Z.shiftr m drop in
    let r := Z.land m (Z.ones drop) in
    let half := Z.shiftl 1 (drop - 1) in
    let q' := if (half <? r)%Z || ((r =? half)%Z && Z.odd q) then (q + 1)%Z else q in
    (Z.sgn x * Z.shiftl q' drop)%Z.

(** [a - b] on two numbers that hold integers, while the result is
    finite: the exact difference, rounded to the nearest double. *)
Definition minus (a b : Z) : Z := toDouble (a - b).

(** [Number.isSafeInteger] on a number that holds an integer. *)
Definition isSafeInteger (x : Z) : bool := (Z.abs x <=? 2 ^ 53 - 1)%Z.

(** [String.prototype.endsWith], by trying every tail of [t]. *)
Fixpoint endsWithb (t s : string) : bool :=
  (t =? s)
  || match t with
     | EmptyString => false
     | String _ t' => endsWithb t' s
     end.

End JS.

(** ** Data model *)

(** Modelled from the spec: the type [DiffByMetric] of
    [utils/calculateDiffByMetric.mts], whose declaration is not part of this
    module ("per-metric delta, percentage"); the reporter reads [delta] and
    uses the two keys as the delta format. *)
Record DiffByMetric : Type := mkDiffByMetric {
  delta : Z;
  percent : string
}.

(** [keyof DiffByMetric]. *)
Inductive DiffKey : Type := KeyDelta | KeyPercent.

(** The [diff] field of an entry, as the reporter reads it:
    [entry.diff.empty], [entry.diff.minified], [entry.diff.gzip]. *)
Record DiffForEntry : Type := mkDiff {
  empty : bool;
  minified : DiffByMetric;
  gzip : DiffByMetric
}.

(** One entry of a report, with the fields the reporter reads. *)
Record Entry : Type := mkEntry {
  packageName : string;
  name : string;
  path : string;
  minifiedSize : Z;
  gzippedSize : Z;
  diff : DiffForEntry
}.

Definition Report : Type := list Entry.

(** The result of [getChangedEntriesInReport]. *)
Record Partition : Type := mkPartition {
  changedEntries : list Entry;
  unchangedEntries : list Entry
}.

(** The options destructured at the head of [markdownReporter]. *)
Record Options : Type := mkOptions {
  commitSHA : string;
  repository : string;
  showUnchanged : bool;
  deltaFormat : DiffKey;
  outputFile : option string
}.

(** The two shapes [formatDeltaFactory] returns: a string, or an object
    [{ deltaOutput, dirSymbol }]. *)
Inductive DeltaOutput : Type :=
| PlainText (s : string)
| WithSymbol (deltaOutput dirSymbol : string).

(** ** Effects *)

Inductive event : Type :=
| FindPackageRoot (dir : string)
| ConsoleLog (text : string)
| ConsoleError (text : string)
| WriteFile (file data : string).

Inductive completion (A : Type) : Type :=
| Normal (a : A)
| Throw (message : string).
Arguments Normal {A} a.
Arguments Throw {A} message.

(** A computation: the events it emitted and how it completed. *)
Definition M (A : Type) : Type := (list event * completion A)%type.

Definition ret {A} (a : A) : M A := ([], Normal a).

Definition bind {A B} (m : M A) (k : A -> M B) : M B :=
  match m with
  | (t1, Normal a) => let (t2, c) := k a in ((t1 ++ t2)%list, c)
  | (t1, Throw e) => (t1, Throw e)
  end.

Definition emit (e : event) : M unit := ([e], Normal tt).
Definition throw {A} (message : string) : M A := ([], Throw message).

Notation "x <- m ;; k" := (bind m (fun x => k))
  (at level 61, m at next level, right associativity).
Notation "m ;; k" := (bind m (fun _ => k))
  (at level 61, right associativity).

(** How a call of [fs.writeFile] ends. The call validates its arguments
    in the caller and throws there when it rejects them (a path that holds
    a NUL character); otherwise it returns, and the callback later
    receives [null] ([None]) or an error ([Some err], [err] being the
    error as [console.error] prints it). *)
Inductive WriteOutcome : Type :=
| Rejected (exception : string)
| Completed (err : option string).

(** What the reporter finds around it: the directory of the module
    ([fileURLToPath(new URL('.', import.meta.url))]), the root locator of
    [workspace-tools], and how a call of [fs.writeFile] with a path and a
    text ends. *)
Record Runtime : Type := mkRuntime {
  moduleDir : string;
  findPackageRoot : string -> option string;
  fsWrite : string -> string -> WriteOutcome
}.

(** ** The reporter *)

Definition icons_increase : string := "increase.png".
Definition icons_decrease : string := "decrease.png".

Definition img (iconName : string) : string :=
  "<img aria-hidden=" ++ JS.dquote ++ "true" ++ JS.dquote
  ++ " src=" ++ JS.dquote ++ "https://microsoft.github.io/monosize/images/"
  ++ iconName ++ JS.dquote ++ " />".

Definition getDirectionSymbol (value : Z) : string :=
  if (value <? 0)%Z then img icons_decrease
  else if (value >? 0)%Z then img icons_increase
  else "".

Definition assertPackageRoot (rt : Runtime) : M unit :=
  let dirname := moduleDir rt in
  emit (FindPackageRoot dirname) ;;
  let packageRoot := findPackageRoot rt dirname in
  if negb (JS.truthy packageRoot) then
    throw (JS.join JS.LF
             [ "Failed to find a package root (directory that contains "
               ++ JS.dquote ++ "package.json" ++ JS.dquote ++ " file)";
               "Lookup start in: " ++ dirname ])
  else ret tt.

(** The callback handed to [fs.writeFile]. *)
Definition writeFileCallback (outputFile : string) (err : option string) : M unit :=
  emit (ConsoleLog ("writing to file" ++ " " ++ outputFile)) ;;
  match err with
  | Some e => emit (ConsoleError ("Error writing to file:" ++ " " ++ e))
  | None => emit (ConsoleLog "Content written to file successfully!")
  end.

Section Reporter.

Variable formatBytes : Z -> string.
Variable formatDeltaFactory : DiffByMetric -> DiffKey -> (Z -> string) -> DeltaOutput.
Variable getChangedEntriesInReport : Report -> Partition.

Definition formatDelta (d : DiffByMetric) (fmt : DiffKey) : string :=
  match formatDeltaFactory d fmt getDirectionSymbol with
  | PlainText output => output
  | WithSymbol deltaOutput dirSymbol => "`" ++ deltaOutput ++ "` " ++ dirSymbol
  end.

Definition footerLine (options : Options) : string :=
  "<sub>🤖 This report was generated against <a href='" ++ repository options
  ++ "/commit/" ++ commitSHA options ++ "'>" ++ commitSHA options ++ "</a></sub>".

Definition title (entry : Entry) : string :=
  "<samp>" ++ packageName entry ++ "</samp> <br /> <abbr title='" ++ path entry
  ++ "'>" ++ name entry ++ "</abbr>".

Definition before (entry : Entry) : string :=
  if empty (diff entry)
  then JS.join "" [ "`" ++ formatBytes 0 ++ "`"; "<br />"; "`" ++ formatBytes 0 ++ "`" ]
  else JS.join ""
         [ "`" ++ formatBytes (JS.minus (minifiedSize entry) (delta (minified (diff entry))))
           ++ "`";
           "<br />";
           "`" ++ formatBytes (JS.minus (gzippedSize entry) (delta (gzip (diff entry))))
           ++ "`" ].

Definition after (entry : Entry) : string :=
  JS.join "" [ "`" ++ formatBytes (minifiedSize entry) ++ "`"; "<br />";
               "`" ++ formatBytes (gzippedSize entry) ++ "`" ].

Definition difference (fmt : DiffKey) (entry : Entry) : string :=
  if empty (diff entry)
  then "🆕 New entry"
  else JS.join "" [ formatDelta (minified (diff entry)) fmt; "<br />";
                    formatDelta (gzip (diff entry)) fmt ].

(** The line pushed for one changed entry. *)
Definition changedRow (fmt : DiffKey) (entry : Entry) : string :=
  "| " ++ title entry ++ " | " ++ before entry ++ " | " ++ after entry ++ " | "
  ++ difference fmt entry ++ "|".

Definition size (entry : Entry) : string :=
  JS.join "" [ "`" ++ formatBytes (minifiedSize entry) ++ "`"; "<br />";
               "`" ++ formatBytes (gzippedSize entry) ++ "`" ].

(** The line pushed for one unchanged entry. *)
Definition unchangedRow (entry : Entry) : string :=
  "| " ++ title entry ++ " | " ++ size entry ++ " |".

(** [reportOutput] after the table of changed entries. *)
Definition withChangedTable (fmt : DiffKey) (changed : list Entry)
           (reportOutput : list string) : list string :=
  if (0 <? Z.of_nat (length changed))%Z then
    let reportOutput :=
      JS.push reportOutput
        "| Package & Exports | Baseline (minified/GZIP) | PR    | Change     |" in
    let reportOutput :=
      JS.push reportOutput
        "| :---------------- | -----------------------: | ----: | ---------: |" in
    let reportOutput := JS.forEach_push (changedRow fmt) changed reportOutput in
    JS.push reportOutput ""
  else reportOutput.

(** [reportOutput] after the collapsible section of unchanged entries. *)
Definition withUnchangedSection (show : bool) (unchanged : list Entry)
           (reportOutput : list string) : list string :=
  if show && (0 <? Z.of_nat (length unchanged))%Z then
    let reportOutput := JS.push reportOutput "<details>" in
    let reportOutput := JS.push reportOutput "<summary>Unchanged fixtures</summary>" in
    let reportOutput := JS.push reportOutput "" in
    let reportOutput := JS.push reportOutput "| Package & Exports | Size (minified/GZIP) |" in
    let reportOutput := JS.push reportOutput "| ----------------- | -------------------: |" in
    let reportOutput := JS.forEach_push unchangedRow unchanged reportOutput in
    JS.push reportOutput "</details>"
  else reportOutput.

(** The synchronous part of [markdownReporter]: everything up to the
    return of the function. A [WriteFile] event is a request that
    [fs.writeFile] accepted, whose callback runs later; a call that
    [fs.writeFile] rejects throws out of the reporter, which has no
    handler around it. *)
Definition markdownReporter (rt : Runtime) (report : Report) (options : Options)
  : M unit :=
  let footer := footerLine options in
  assertPackageRoot rt ;;
  let p := getChangedEntriesInReport report in
  let reportOutput := [ "## 📊 Bundle size report"; "" ] in
  if (Z.of_nat (length (changedEntries p)) =? 0)%Z then
    let reportOutput := JS.push reportOutput "✅ No changes found" in
    emit (ConsoleLog (JS.join JS.LF reportOutput))
  else
    let reportOutput :=
      withChangedTable (deltaFormat options) (changedEntries p) reportOutput in
    let reportOutput :=
      withUnchangedSection (showUnchanged options) (unchangedEntries p) reportOutput in
    let reportOutput := JS.push reportOutput footer in
    emit (ConsoleLog (JS.join JS.LF reportOutput)) ;;
    if JS.truthy (outputFile options) then
      match outputFile options with
      | Some file =>
          let content := JS.join JS.LF reportOutput in
          match fsWrite rt file content with
          | Rejected exception => throw exception
          | Completed _ => emit (WriteFile file content)
          end
      | None => ret tt
      end
    else ret tt.

(** The callbacks of the write requests of a trace, run in order once the
    synchronous part has returned. *)
Fixpoint runCallbacks (rt : Runtime) (requests : list event) : list event :=
  match requests with
  | [] => []
  | WriteFile file data :: rest =>
      (match fsWrite rt file data with
       | Completed err => fst (writeFileCallback file err)
       | Rejected _ => []
       end ++ runCallbacks rt rest)%list
  | _ :: rest => runCallbacks rt rest
  end.

(** One invocation, to the end: the synchronous part, then the callbacks.
    An exception leaves the function before any request was accepted. *)
Definition invoke (rt : Runtime) (report : Report) (options : Options) : M unit :=
  match markdownReporter rt report options with
  | (t, Normal u) => ((t ++ runCallbacks rt t)%list, Normal u)
  | (t, Throw e) => (t, Throw e)
  end.

(** *** The output, line by line

    The lists below name the lines the reporter pushes; the lemmas of
    the next part prove that [fullReportOutput] is made of them. *)

(** The array [reportOutput] at the final [console.log], on the path that
    reaches it. *)
Definition fullReportOutput (options : Options) (p : Partition) : list string :=
  JS.push
    (withUnchangedSection (showUnchanged options) (unchangedEntries p)
       (withChangedTable (deltaFormat options) (changedEntries p)
          [ "## 📊 Bundle size report"; "" ]))
    (footerLine options).

(** The lines of the collapsible section, when it is rendered. *)
Definition unchangedSection (unchanged : list Entry) : list string :=
  ([ "<details>"; "<summary>Unchanged fixtures</summary>"; "";
     "| Package & Exports | Size (minified/GZIP) |";
     "| ----------------- | -------------------: |" ]
   ++ map unchangedRow unchanged ++ [ "</details>" ])%list.

(** Everything pushed before the footer, when there are changed entries. *)
Definition beforeFooter (options : Options) (p : Partition) : list string :=
  ([ "## 📊 Bundle size report"; "";
     "| Package & Exports | Baseline (minified/GZIP) | PR    | Change     |";
     "| :---------------- | -----------------------: | ----: | ---------: |" ]
   ++ map (changedRow (deltaFormat options)) (changedEntries p)
   ++ [ "" ]
   ++ match showUnchanged options, unchangedEntries p with
      | true, _ :: _ => unchangedSection (unchangedEntries p)
      | _, _ => []
      end)%list.

(** The write request of the synchronous part, when the call is accepted. *)
Definition writeRequest (rt : Runtime) (options : Options) (content : string)
  : list event :=
  match outputFile options with
  | Some file =>
      if (file =? "")%string then []
      else match fsWrite rt file content with
           | Rejected _ => []
           | Completed _ => [ WriteFile file content ]
           end
  | None => []
  end.

(** How the synchronous part ends once the report is printed. *)
Definition writeEnd (rt : Runtime) (options : Options) (content : string)
  : completion unit :=
  match outputFile options with
  | Some file =>
      if (file =? "")%string then Normal tt
      else match fsWrite rt file content with
           | Rejected exception => Throw exception
           | Completed _ => Normal tt
           end
  | None => Normal tt
  end.

(** What the callback of that request logs once the write is over. *)
Definition writeCompletion (rt : Runtime) (options : Options) (content : string)
  : list event :=
  match outputFile options with
  | Some file =>
      if (file =? "")%string then []
      else match fsWrite rt file content with
           | Rejected _ => []
           | Completed err => fst (writeFileCallback file err)
           end
  | None => []
  end.

End Reporter.

(** ** Sample collaborators and inputs

    Stand-ins for the imported functions and for the surroundings of the
    reporter, on which the reporter is run on concrete inputs. No theorem
    about the reporter assumes anything of them. *)

Module Sample.

Definition formatBytes (n : Z) : string :=
  NilEmpty.string_of_int (Z.to_int n) ++ " B".

Definition formatDeltaFactory (d : DiffByMetric) (fmt : DiffKey)
           (directionSymbol : Z -> string) : DeltaOutput :=
  if (delta d =? 0)%Z then PlainText ""
  else WithSymbol
         match fmt with
         | KeyDelta => formatBytes (delta d)
         | KeyPercent => percent d
         end
         (directionSymbol (delta d)).

Definition isChanged (e : Entry) : bool :=
  empty (diff e)
  || negb (delta (minified (diff e)) =? 0)%Z
  || negb (delta (gzip (diff e)) =? 0)%Z.

Definition getChangedEntriesInReport (report : Report) : Partition :=
  {| changedEntries := filter isChanged report;
     unchangedEntries := filter (fun e => negb (isChanged e)) report |}.

Definition here : string := "/repo/packages/monosize/lib/reporters/".

(** A checkout in which the root is found and files can be written. *)
Definition runtime : Runtime :=
  {| moduleDir := here;
     findPackageRoot := fun _ => Some "/repo/packages/monosize";
     fsWrite := fun _ _ => Completed None |}.

(** No [package.json] above the module. *)
Definition rootless : Runtime :=
  {| moduleDir := here;
     findPackageRoot := fun _ => None;
     fsWrite := fun _ _ => Completed None |}.

(** Every write fails. *)
Definition readOnly : Runtime :=
  {| moduleDir := here;
     findPackageRoot := fun _ => Some "/repo/packages/monosize";
     fsWrite := fun file _ =>
       Completed
         (Some ("Error: ENOENT: no such file or directory, open '" ++ file ++ "'")) |}.

(** Whether a path holds a NUL character. *)
Fixpoint hasNullByte (path : string) : bool :=
  match path with
  | EmptyString => false
  | String c rest => (c =? zero)%char || hasNullByte rest
  end.

(** A checkout in which [fs.writeFile] rejects a path with a NUL
    character, as Node does, and writes every other file. *)
Definition node : Runtime :=
  {| moduleDir := here;
     findPackageRoot := fun _ => Some "/repo/packages/monosize";
     fsWrite := fun file _ =>
       if hasNullByte file
       then Rejected ("TypeError [ERR_INVALID_ARG_VALUE]: The argument 'path' must be "
                      ++ "a string, Uint8Array, or URL without null bytes.")
       else Completed None |}.

(** A path with a NUL character in it. *)
Definition nulPath : string := "report" ++ String zero ".md".

(** Minified 2000 -> 1500, gzip 800 -> 600. *)
Definition shrunk : Entry :=
  {| packageName := "@scope/button"; name := "Button"; path := "fixtures/Button.fixture.js";
     minifiedSize := 1500; gzippedSize := 600;
     diff := {| empty := false;
                minified := {| delta := -500; percent := "-25%" |};
                gzip := {| delta := -200; percent := "-25%" |} |} |}.

(** Minified 1000 -> 1300, gzip unchanged. *)
Definition grown : Entry :=
  {| packageName := "@scope/menu"; name := "Menu"; path := "fixtures/Menu.fixture.js";
     minifiedSize := 1300; gzippedSize := 400;
     diff := {| empty := false;
                minified := {| delta := 300; percent := "30%" |};
                gzip := {| delta := 0; percent := "0%" |} |} |}.

(** An entry without a baseline. *)
Definition fresh : Entry :=
  {| packageName := "@scope/card"; name := "Card"; path := "fixtures/Card.fixture.js";
     minifiedSize := 900; gzippedSize := 300;
     diff := {| empty := true;
                minified := {| delta := 900; percent := "100%" |};
                gzip := {| delta := 300; percent := "100%" |} |} |}.

Definition steady : Entry :=
  {| packageName := "@scope/link"; name := "Link"; path := "fixtures/Link.fixture.js";
     minifiedSize := 700; gzippedSize := 250;
     diff := {| empty := false;
                minified := {| delta := 0; percent := "0%" |};
                gzip := {| delta := 0; percent := "0%" |} |} |}.

Definition options (show : bool) (file : option string) : Options :=
  {| commitSHA := "3f2a9c1";
     repository := "https://github.com/microsoft/monosize";
     showUnchanged := show;
     deltaFormat := KeyDelta;
     outputFile := file |}.

(** One invocation of the reporter with the stand-ins. *)
Definition run : Runtime -> Report -> Options -> M unit :=
  invoke formatBytes formatDeltaFactory getChangedEntriesInReport.

End Sample.

(** ** Strings and arrays *)

Section StringFacts.

Lemma append_assoc (a b c : string) : (a ++ b) ++ c = a ++ (b ++ c).
Proof.
  induction a as [|ch a IH]; simpl.
  - reflexivity.
  - now rewrite IH.
Qed.

Lemma endsWithb_complete (t s : string) :
  JS.endsWith t s -> JS.endsWithb t s = true.
Proof.
  intros [a ->].
  induction a as [|ch a IH]; simpl.
  - destruct s; simpl; rewrite ?String.eqb_refl, ?Ascii.eqb_refl; reflexivity.
  - rewrite IH. apply orb_true_r.
Qed.

Lemma endsWith_trans (t s u : string) :
  JS.endsWith t s -> JS.endsWith s u -> JS.endsWith t u.
Proof.
  intros [a ->] [b ->]. exists (a ++ b). now rewrite append_assoc.
Qed.

Lemma join_cons2 (sep x y : string) (rest : list string) :
  JS.join sep (x :: y :: rest) = x ++ sep ++ JS.join sep (y :: rest).
Proof. reflexivity. Qed.

Lemma join_snoc (sep : string) (xs : list string) (y : string) :
  xs <> [] ->
  JS.join sep (xs ++ [y])%list = JS.join sep xs ++ sep ++ y.
Proof.
  induction xs as [|x rest IH]; intros Hne; [congruence|].
  destruct rest as [|x' rest'].
  - reflexivity.
  - change ((x :: x' :: rest') ++ [y])%list with (x :: x' :: (rest' ++ [y]))%list.
    rewrite !join_cons2.
    change (x' :: (rest' ++ [y]))%list with ((x' :: rest') ++ [y])%list.
    rewrite IH by discriminate.
    now rewrite !append_assoc.
Qed.

Lemma append_nil_r (a : string) : a ++ "" = a.
Proof.
  induction a as [|ch a IH]; simpl; [reflexivity | now rewrite IH].
Qed.

Lemma join_includes (sep x : string) (l : list string) :
  In x l -> JS.includes (JS.join sep l) x.
Proof.
  induction l as [|y rest IH]; intros Hin; [destruct Hin|].
  destruct rest as [|z rest'].
  - destruct Hin as [->|[]]. exists "", "". simpl. now rewrite append_nil_r.
  - rewrite join_cons2. destruct Hin as [->|Hin].
    + exists "", (sep ++ JS.join sep (z :: rest')). reflexivity.
    + destruct (IH Hin) as [a [b Hab]]. rewrite Hab.
      exists (y ++ sep ++ a), b. now rewrite !append_assoc.
Qed.

(** The joined text around one element of the array. *)
Lemma join_app_cons (sep x : string) (front back : list string) :
  exists a,
    JS.join sep (front ++ x :: back)
    = a ++ x ++ match back with
                | [] => ""
                | _ :: _ => sep ++ JS.join sep back
                end.
Proof.
  induction front as [|z front IH].
  - exists "". destruct back; simpl; [now rewrite append_nil_r | reflexivity].
  - destruct IH as [a Ha].
    exists (z ++ sep ++ a).
    change ((z :: front) ++ x :: back)%list with (z :: (front ++ x :: back))%list.
    destruct (front ++ x :: back)%list as [|y rest] eqn:Hrest.
    + destruct front; discriminate.
    + rewrite join_cons2, Ha. now rewrite !append_assoc.
Qed.

(** Two elements of the array occur in the joined text in the order of
    the array. *)
Lemma join_keeps_order (sep x y : string) (front middle back : list string) :
  exists a b c,
    JS.join sep (front ++ x :: middle ++ y :: back) = a ++ x ++ b ++ y ++ c.
Proof.
  destruct (join_app_cons sep x front (middle ++ y :: back)) as [a Ha].
  destruct (join_app_cons sep y middle back) as [b Hb].
  rewrite Ha.
  destruct (middle ++ y :: back)%list as [|z rest] eqn:Hrest.
  - destruct middle; discriminate.
  - rewrite Hb. eexists a, (sep ++ b), _. now rewrite !append_assoc.
Qed.

(** An integer of magnitude at most 2^53 is a double. *)
Lemma toDouble_exact (x : Z) :
  (Z.abs x <= 2 ^ 53)%Z -> JS.toDouble x = x.
Proof.
  intros Hbound. unfold JS.toDouble.
  destruct (Z.eq_dec (Z.abs x) (2 ^ 53)) as [Htop|Hbelow].
  - destruct (Z.abs_eq_or_opp x) as [Hx|Hx]; rewrite Hx in Htop.
    + subst x. reflexivity.
    + assert (x = - 2 ^ 53)%Z as -> by lia. reflexivity.
  - assert (Hlog : (Z.log2 (Z.abs x) < 53)%Z).
    { destruct (Z.eq_dec (Z.abs x) 0) as [->|Hpos]; [reflexivity|].
      apply Z.log2_lt_pow2; lia. }
    destruct (Z.leb_spec (Z.log2 (Z.abs x) - 52) 0); [reflexivity | lia].
Qed.

(** Above 2^53 the difference is rounded, a tie going to the even
    significand: 2^53 + 1 becomes 2^53, and 2^53 + 3 becomes 2^53 + 4. *)
Example minus_rounds_ties_to_even :
  JS.minus (2 ^ 53) (- 1) = (2 ^ 53)%Z
  /\ JS.minus (2 ^ 53) (- 3) = (2 ^ 53 + 4)%Z
  /\ JS.minus (- 2 ^ 53) 1 = (- 2 ^ 53)%Z.
Proof. repeat split. Qed.

Lemma minus_exact (a b : Z) :
  (Z.abs (a - b) <= 2 ^ 53)%Z -> JS.minus a b = (a - b)%Z.
Proof. apply toDouble_exact. Qed.

Lemma forEach_push_map {A} (f : A -> string) (xs : list A) (out : list string) :
  JS.forEach_push f xs out = (out ++ map f xs)%list.
Proof.
  unfold JS.forEach_push. revert out.
  induction xs as [|x xs IH]; intros out; simpl.
  - now rewrite app_nil_r.
  - rewrite IH. unfold JS.push. now rewrite <- app_assoc.
Qed.

End StringFacts.

(** ** The shape of the report *)

Section ReporterFacts.

Variable formatBytes : Z -> string.
Variable formatDeltaFactory : DiffByMetric -> DiffKey -> (Z -> string) -> DeltaOutput.
Variable getChangedEntriesInReport : Report -> Partition.

Local Abbreviation row := (changedRow formatBytes formatDeltaFactory).
Local Abbreviation urow := (unchangedRow formatBytes).
Local Abbreviation lines := (fullReportOutput formatBytes formatDeltaFactory).
Local Abbreviation reporter :=
  (markdownReporter formatBytes formatDeltaFactory getChangedEntriesInReport).
Local Abbreviation run :=
  (invoke formatBytes formatDeltaFactory getChangedEntriesInReport).

Lemma length_is_zero {A} (l : list A) :
  (Z.of_nat (length l) =? 0)%Z = match l with [] => true | _ :: _ => false end.
Proof. destruct l; reflexivity. Qed.

Lemma length_is_pos {A} (l : list A) :
  (0 <? Z.of_nat (length l))%Z = match l with [] => false | _ :: _ => true end.
Proof. destruct l; reflexivity. Qed.

Lemma withChangedTable_shape fmt (changed : list Entry) (out : list string) :
  changed <> [] ->
  withChangedTable formatBytes formatDeltaFactory fmt changed out
  = (out ++ [ "| Package & Exports | Baseline (minified/GZIP) | PR    | Change     |";
              "| :---------------- | -----------------------: | ----: | ---------: |" ]
         ++ map (row fmt) changed ++ [ "" ])%list.
Proof.
  intros Hne. unfold withChangedTable.
  rewrite length_is_pos. destruct changed as [|e rest]; [congruence|].
  rewrite forEach_push_map. unfold JS.push.
  now rewrite <- !app_assoc.
Qed.

Lemma withUnchangedSection_shape (show : bool) (unchanged : list Entry)
      (out : list string) :
  withUnchangedSection formatBytes show unchanged out
  = (out ++ match show, unchanged with
            | true, _ :: _ => unchangedSection formatBytes unchanged
            | _, _ => []
            end)%list.
Proof.
  unfold withUnchangedSection. rewrite length_is_pos.
  destruct show, unchanged as [|e rest]; simpl andb; cbv iota;
    rewrite ?app_nil_r; try reflexivity.
  rewrite forEach_push_map. unfold JS.push, unchangedSection.
  now rewrite <- !app_assoc.
Qed.

Lemma fullReportOutput_shape (options : Options) (p : Partition) :
  changedEntries p <> [] ->
  lines options p = (beforeFooter formatBytes formatDeltaFactory options p ++ [ footerLine options ])%list.
Proof.
  intros Hne. unfold fullReportOutput, beforeFooter.
  rewrite withChangedTable_shape by assumption.
  rewrite withUnchangedSection_shape. unfold JS.push.
  simpl app. now rewrite <- !app_assoc.
Qed.

Lemma reporter_no_root rt report options :
  JS.truthy (findPackageRoot rt (moduleDir rt)) = false ->
  reporter rt report options
  = ([ FindPackageRoot (moduleDir rt) ],
     Throw ("Failed to find a package root (directory that contains "
            ++ JS.dquote ++ "package.json" ++ JS.dquote ++ " file)"
            ++ JS.LF ++ "Lookup start in: " ++ moduleDir rt)).
Proof.
  intros Hroot. unfold markdownReporter, assertPackageRoot.
  rewrite Hroot. reflexivity.
Qed.

Lemma reporter_no_changes rt report options :
  JS.truthy (findPackageRoot rt (moduleDir rt)) = true ->
  changedEntries (getChangedEntriesInReport report) = [] ->
  reporter rt report options
  = ([ FindPackageRoot (moduleDir rt);
       ConsoleLog ("## 📊 Bundle size report" ++ JS.LF ++ JS.LF ++ "✅ No changes found") ],
     Normal tt).
Proof.
  intros Hroot Hnone. unfold markdownReporter, assertPackageRoot.
  rewrite Hroot, Hnone. reflexivity.
Qed.

Lemma reporter_changes rt report options :
  JS.truthy (findPackageRoot rt (moduleDir rt)) = true ->
  changedEntries (getChangedEntriesInReport report) <> [] ->
  reporter rt report options
  = ((FindPackageRoot (moduleDir rt)
      :: ConsoleLog (JS.join JS.LF (lines options (getChangedEntriesInReport report)))
      :: writeRequest rt options
           (JS.join JS.LF (lines options (getChangedEntriesInReport report))))%list,
     writeEnd rt options
       (JS.join JS.LF (lines options (getChangedEntriesInReport report)))).
Proof.
  intros Hroot Hsome.
  unfold markdownReporter, assertPackageRoot, writeRequest, writeEnd, fullReportOutput.
  rewrite Hroot, length_is_zero.
  destruct (changedEntries (getChangedEntriesInReport report)); [congruence|].
  destruct (outputFile options) as [file|]; simpl; [|reflexivity].
  destruct (file =? "")%string; [reflexivity|].
  simpl. destruct (fsWrite rt file _); reflexivity.
Qed.

Lemma run_no_root rt report options :
  JS.truthy (findPackageRoot rt (moduleDir rt)) = false ->
  run rt report options
  = ([ FindPackageRoot (moduleDir rt) ],
     Throw ("Failed to find a package root (directory that contains "
            ++ JS.dquote ++ "package.json" ++ JS.dquote ++ " file)"
            ++ JS.LF ++ "Lookup start in: " ++ moduleDir rt)).
Proof.
  intros Hroot. unfold invoke. now rewrite reporter_no_root.
Qed.

Lemma run_no_changes rt report options :
  JS.truthy (findPackageRoot rt (moduleDir rt)) = true ->
  changedEntries (getChangedEntriesInReport report) = [] ->
  run rt report options
  = ([ FindPackageRoot (moduleDir rt);
       ConsoleLog ("## 📊 Bundle size report" ++ JS.LF ++ JS.LF ++ "✅ No changes found") ],
     Normal tt).
Proof.
  intros Hroot Hnone. unfold invoke.
  now rewrite reporter_no_changes.
Qed.

Lemma run_changes rt report options :
  JS.truthy (findPackageRoot rt (moduleDir rt)) = true ->
  changedEntries (getChangedEntriesInReport report) <> [] ->
  run rt report options
  = ((FindPackageRoot (moduleDir rt)
      :: ConsoleLog (JS.join JS.LF (lines options (getChangedEntriesInReport report)))
      :: writeRequest rt options
           (JS.join JS.LF (lines options (getChangedEntriesInReport report)))
      ++ writeCompletion rt options
           (JS.join JS.LF (lines options (getChangedEntriesInReport report))))%list,
     writeEnd rt options
       (JS.join JS.LF (lines options (getChangedEntriesInReport report)))).
Proof.
  intros Hroot Hsome. unfold invoke.
  rewrite reporter_changes by assumption.
  set (text := JS.join JS.LF _).
  unfold writeRequest, writeEnd, writeCompletion.
  destruct (outputFile options) as [file|]; [|reflexivity].
  destruct (file =? "")%string; [reflexivity|].
  destruct (fsWrite rt file text) eqn:Hcall; [reflexivity|].
  cbn [runCallbacks app]. rewrite Hcall. now rewrite app_nil_r.
Qed.

End ReporterFacts.


(** ** Invocations: the precondition, the early return, the file *)

Section Invocations.

Variable formatBytes : Z -> string.
Variable formatDeltaFactory : DiffByMetric -> DiffKey -> (Z -> string) -> DeltaOutput.
Variable getChangedEntriesInReport : Report -> Partition.

Local Abbreviation lines := (fullReportOutput formatBytes formatDeltaFactory).
Local Abbreviation reporter :=
  (markdownReporter formatBytes formatDeltaFactory getChangedEntriesInReport).
Local Abbreviation run :=
  (invoke formatBytes formatDeltaFactory getChangedEntriesInReport).

(** C2. When the classifier returns no changed entry, the invocation
    prints the header, an empty line and the "no changes" line, and
    nothing else: no table, no collapsible section, whatever
    [showUnchanged] and the unchanged entries are. *)
Theorem no_changes_output rt report options :
  JS.truthy (findPackageRoot rt (moduleDir rt)) = true ->
  changedEntries (getChangedEntriesInReport report) = [] ->
  run rt report options
  = ([ FindPackageRoot (moduleDir rt);
       ConsoleLog ("## 📊 Bundle size report" ++ JS.LF ++ JS.LF ++ "✅ No changes found") ],
     Normal tt).
Proof.
  intros Hroot Hnone. now apply run_no_changes.
Qed.

Lemma writeCompletion_no_lookup rt options content dir :
  ~ In (FindPackageRoot dir) (writeCompletion rt options content).
Proof.
  unfold writeCompletion.
  destruct (outputFile options) as [file|]; [|intros []].
  destruct (file =? "")%string; [intros []|].
  unfold writeFileCallback.
  destruct (fsWrite rt file content) as [exception|[err|]]; simpl;
    [intros [] | intros [H|[H|[]]]; discriminate ..].
Qed.

Lemma writeRequest_no_lookup rt options content dir :
  ~ In (FindPackageRoot dir) (writeRequest rt options content).
Proof.
  unfold writeRequest.
  destruct (outputFile options) as [file|]; [|intros []].
  destruct (file =? "")%string; [intros []|].
  destruct (fsWrite rt file content); [intros []|].
  intros [H|[]]; discriminate.
Qed.

(** C8. When the locator returns no root, the invocation throws the
    descriptive error and has logged nothing; and in every invocation
    the lookup is the first event and the only lookup. *)
Theorem missing_root_throws rt report options :
  (findPackageRoot rt (moduleDir rt) = None ->
   run rt report options
   = ([ FindPackageRoot (moduleDir rt) ],
      Throw ("Failed to find a package root (directory that contains "
             ++ JS.dquote ++ "package.json" ++ JS.dquote ++ " file)"
             ++ JS.LF ++ "Lookup start in: " ++ moduleDir rt)))
  /\ exists rest,
       fst (run rt report options) = FindPackageRoot (moduleDir rt) :: rest
       /\ forall dir, ~ In (FindPackageRoot dir) rest.
Proof.
  split.
  - intros Hnone. apply run_no_root. now rewrite Hnone.
  - destruct (JS.truthy (findPackageRoot rt (moduleDir rt))) eqn:Hroot.
    + destruct (changedEntries (getChangedEntriesInReport report)) eqn:Hchanged.
      * rewrite run_no_changes by assumption.
        eexists; split; [reflexivity|].
        intros dir [H|[]]; discriminate.
      * rewrite run_changes by (assumption || congruence).
        eexists; split; [reflexivity|].
        intros dir [H|H]; [discriminate|].
        apply in_app_or in H as [H|H].
        -- now apply writeRequest_no_lookup in H.
        -- now apply writeCompletion_no_lookup in H.
    + rewrite run_no_root by assumption.
      exists []. split; [reflexivity | intros dir []].
Qed.

(** X13. An invocation whose write request was accepted and whose write
    then fails returns normally; its events are, in order: the lookup, the
    report on standard output, the request with the same text, and the two
    lines of the callback, the second on the error channel. *)
Theorem failed_write_is_logged rt report options file data err :
  In (WriteFile file data) (fst (reporter rt report options)) ->
  fsWrite rt file data = Completed (Some err) ->
  run rt report options
  = ([ FindPackageRoot (moduleDir rt);
       ConsoleLog data;
       WriteFile file data;
       ConsoleLog ("writing to file " ++ file);
       ConsoleError ("Error writing to file: " ++ err) ],
     Normal tt).
Proof.
  intros Hreq Hfail.
  destruct (JS.truthy (findPackageRoot rt (moduleDir rt))) eqn:Hroot.
  - destruct (changedEntries (getChangedEntriesInReport report)) eqn:Hchanged.
    + rewrite reporter_no_changes in Hreq by assumption.
      destruct Hreq as [H|[H|[]]]; discriminate.
    + assert (Hsome : changedEntries (getChangedEntriesInReport report) <> [])
        by congruence.
      rewrite reporter_changes in Hreq by assumption.
      rewrite run_changes by assumption.
      set (text := JS.join JS.LF _) in *.
      unfold writeRequest, writeEnd, writeCompletion in *.
      destruct Hreq as [H|[H|H]]; try discriminate.
      destruct (outputFile options) as [f|]; [|destruct H].
      destruct (f =? "")%string; [destruct H|].
      destruct (fsWrite rt f text) as [exception|outcome] eqn:Hcall; [destruct H|].
      destruct H as [H|[]]. injection H as -> ->.
      rewrite Hfail in Hcall. injection Hcall as <-. reflexivity.
  - rewrite reporter_no_root in Hreq by assumption.
    destruct Hreq as [H|[]]; discriminate.
Qed.

(** With changed entries, a configured file and a call of [fs.writeFile]
    that is accepted, the text of the write request is the text printed on
    standard output. *)
Lemma file_content_is_stdout_text rt report options file :
  JS.truthy (findPackageRoot rt (moduleDir rt)) = true ->
  changedEntries (getChangedEntriesInReport report) <> [] ->
  outputFile options = Some file -> file <> "" ->
  (forall data, exists err, fsWrite rt file data = Completed err) ->
  exists text,
    fst (reporter rt report options)
    = [ FindPackageRoot (moduleDir rt); ConsoleLog text; WriteFile file text ].
Proof.
  intros Hroot Hsome Hfile Hne Haccepted.
  rewrite reporter_changes by assumption.
  unfold writeRequest. rewrite Hfile.
  apply String.eqb_neq in Hne. rewrite Hne.
  destruct (Haccepted
              (JS.join JS.LF
                 (fullReportOutput formatBytes formatDeltaFactory options
                    (getChangedEntriesInReport report)))) as [err ->].
  eexists. reflexivity.
Qed.

End Invocations.

(** C2 on a report whose only entry is unchanged, with [showUnchanged]. *)
Lemma no_changes_output_witness :
  Sample.run Sample.runtime [ Sample.steady ] (Sample.options true None)
  = ([ FindPackageRoot Sample.here;
       ConsoleLog ("## 📊 Bundle size report" ++ JS.LF ++ JS.LF ++ "✅ No changes found") ],
     Normal tt).
Proof.
  apply (no_changes_output Sample.formatBytes Sample.formatDeltaFactory
           Sample.getChangedEntriesInReport Sample.runtime).
  - reflexivity.
  - reflexivity.
Defined.

(** C8 where no [package.json] is found. *)
Lemma missing_root_throws_witness :
  exists message,
    Sample.run Sample.rootless [ Sample.shrunk ] (Sample.options true (Some "report.md"))
    = ([ FindPackageRoot Sample.here ], Throw message).
Proof.
  eexists.
  apply (proj1 (missing_root_throws Sample.formatBytes Sample.formatDeltaFactory
                  Sample.getChangedEntriesInReport Sample.rootless
                  [ Sample.shrunk ] (Sample.options true (Some "report.md")))).
  reflexivity.
Defined.

(** X13 where every write fails. *)
Lemma failed_write_is_logged_witness :
  exists text,
    Sample.run Sample.readOnly [ Sample.shrunk ] (Sample.options false (Some "report.md"))
    = ([ FindPackageRoot Sample.here;
         ConsoleLog text;
         WriteFile "report.md" text;
         ConsoleLog "writing to file report.md";
         ConsoleError "Error writing to file: Error: ENOENT: no such file or directory, open 'report.md'" ],
       Normal tt).
Proof.
  eexists.
  apply (failed_write_is_logged Sample.formatBytes Sample.formatDeltaFactory
           Sample.getChangedEntriesInReport Sample.readOnly).
  - vm_compute. right. right. left. reflexivity.
  - reflexivity.
Defined.

(** C7. A report without changed entries and a configured file: the text
    goes to standard output and no write is requested. *)
Lemma no_changes_no_file :
  Sample.run Sample.runtime [ Sample.steady ] (Sample.options false (Some "report.md"))
  = ([ FindPackageRoot Sample.here;
       ConsoleLog ("## 📊 Bundle size report" ++ JS.LF ++ JS.LF ++ "✅ No changes found") ],
     Normal tt).
Proof. reflexivity. Qed.

(** C9. A report with a changed entry and a path that [fs.writeFile]
    rejects: the report is printed, the call throws, and the exception
    leaves the reporter; nothing is logged to the error channel. *)
Lemma rejected_write_throws :
  exists text message,
    Sample.run Sample.node [ Sample.shrunk ] (Sample.options false (Some Sample.nulPath))
    = ([ FindPackageRoot Sample.here; ConsoleLog text ], Throw message).
Proof. eexists _, _. reflexivity. Qed.

(** ** Rows of the table of changed entries *)

Section Rows.

Variable formatBytes : Z -> string.
Variable formatDeltaFactory : DiffByMetric -> DiffKey -> (Z -> string) -> DeltaOutput.
Variable getChangedEntriesInReport : Report -> Partition.

Local Abbreviation row := (changedRow formatBytes formatDeltaFactory).
Local Abbreviation lines := (fullReportOutput formatBytes formatDeltaFactory).
Local Abbreviation run :=
  (invoke formatBytes formatDeltaFactory getChangedEntriesInReport).

Lemma join_cells (a b c : string) : JS.join "" [ a; b; c ] = a ++ b ++ c.
Proof. reflexivity. Qed.

Lemma changed_row_in_output (options : Options) (p : Partition) (entry : Entry) :
  In entry (changedEntries p) ->
  In (row (deltaFormat options) entry) (lines options p).
Proof.
  intros Hin.
  assert (Hne : changedEntries p <> []) by (intros E; rewrite E in Hin; destruct Hin).
  rewrite fullReportOutput_shape by assumption.
  apply in_or_app. left. unfold beforeFooter.
  apply in_or_app. right. apply in_or_app. left.
  now apply in_map.
Qed.

Lemma changedRow_full (fmt : DiffKey) (entry : Entry) :
  empty (diff entry) = false ->
  row fmt entry
  = "| " ++ title entry
    ++ " | `"
    ++ formatBytes (JS.minus (minifiedSize entry) (delta (minified (diff entry))))
    ++ "`<br />`"
    ++ formatBytes (JS.minus (gzippedSize entry) (delta (gzip (diff entry))))
    ++ "` | `" ++ formatBytes (minifiedSize entry)
    ++ "`<br />`" ++ formatBytes (gzippedSize entry)
    ++ "` | " ++ difference formatDeltaFactory fmt entry ++ "|".
Proof.
  intros Hfull. unfold changedRow, before, after.
  rewrite Hfull, !join_cells. now rewrite !append_assoc.
Qed.

Lemma changedRow_new (fmt : DiffKey) (entry : Entry) :
  empty (diff entry) = true ->
  row fmt entry
  = "| " ++ title entry
    ++ " | `" ++ formatBytes 0 ++ "`<br />`" ++ formatBytes 0
    ++ "` | `" ++ formatBytes (minifiedSize entry)
    ++ "`<br />`" ++ formatBytes (gzippedSize entry)
    ++ "` | 🆕 New entry|".
Proof.
  intros Hnew. unfold changedRow, before, after, difference.
  rewrite Hnew, !join_cells. now rewrite !append_assoc.
Qed.

(** The row of a changed entry is part of the text the invocation prints. *)
Lemma changed_row_is_printed rt report options entry :
  JS.truthy (findPackageRoot rt (moduleDir rt)) = true ->
  In entry (changedEntries (getChangedEntriesInReport report)) ->
  exists text,
    nth_error (fst (run rt report options)) 1 = Some (ConsoleLog text)
    /\ JS.includes text (row (deltaFormat options) entry).
Proof.
  intros Hroot Hin.
  assert (Hsome : changedEntries (getChangedEntriesInReport report) <> []).
  { intros E. rewrite E in Hin. destruct Hin. }
  exists (JS.join JS.LF (lines options (getChangedEntriesInReport report))).
  split; [now rewrite run_changes by assumption|].
  now apply join_includes, changed_row_in_output.
Qed.

(** C3. For a changed entry whose diff is not empty and whose sizes and
    deltas are safe integers, the text the invocation prints holds the
    row of the entry, in which the "before" cell is [formatBytes] of the
    current size minus the stored delta, for the minified and the gzipped
    size each, and the "after" cell is [formatBytes] of the current
    sizes. The subtraction is that of doubles; it is the exact difference
    whenever that difference has a magnitude of at most 2^53. *)
Theorem before_is_after_minus_delta rt report options entry :
  JS.truthy (findPackageRoot rt (moduleDir rt)) = true ->
  In entry (changedEntries (getChangedEntriesInReport report)) ->
  empty (diff entry) = false ->
  JS.isSafeInteger (minifiedSize entry) = true ->
  JS.isSafeInteger (delta (minified (diff entry))) = true ->
  JS.isSafeInteger (gzippedSize entry) = true ->
  JS.isSafeInteger (delta (gzip (diff entry))) = true ->
  (exists text,
      nth_error (fst (run rt report options)) 1 = Some (ConsoleLog text)
      /\ JS.includes text
           ("| " ++ title entry
            ++ " | `"
            ++ formatBytes (JS.minus (minifiedSize entry) (delta (minified (diff entry))))
            ++ "`<br />`"
            ++ formatBytes (JS.minus (gzippedSize entry) (delta (gzip (diff entry))))
            ++ "` | `" ++ formatBytes (minifiedSize entry)
            ++ "`<br />`" ++ formatBytes (gzippedSize entry)
            ++ "` | " ++ difference formatDeltaFactory (deltaFormat options) entry ++ "|"))
  /\ (Z.abs (minifiedSize entry - delta (minified (diff entry))) <= 2 ^ 53 ->
      JS.minus (minifiedSize entry) (delta (minified (diff entry)))
      = minifiedSize entry - delta (minified (diff entry)))
  /\ (Z.abs (gzippedSize entry - delta (gzip (diff entry))) <= 2 ^ 53 ->
      JS.minus (gzippedSize entry) (delta (gzip (diff entry)))
      = gzippedSize entry - delta (gzip (diff entry))).
Proof.
  intros Hroot Hin Hfull _ _ _ _.
  split; [|split; apply minus_exact].
  destruct (changed_row_is_printed rt report options entry Hroot Hin)
    as (text & Hprinted & Hrow).
  exists text. split; [exact Hprinted|].
  now rewrite <- changedRow_full.
Qed.

(** C4. For a changed entry whose diff is empty, the row the reporter
    builds has [formatBytes 0] for both "before" values and the "new
    entry" marker for the change, whatever the delta formatter returns
    and whatever the stored deltas are; and the text the invocation
    prints holds that row. *)
Theorem new_entry_row rt report options entry :
  JS.truthy (findPackageRoot rt (moduleDir rt)) = true ->
  In entry (changedEntries (getChangedEntriesInReport report)) ->
  empty (diff entry) = true ->
  row (deltaFormat options) entry
  = "| " ++ title entry
    ++ " | `" ++ formatBytes 0 ++ "`<br />`" ++ formatBytes 0
    ++ "` | `" ++ formatBytes (minifiedSize entry)
    ++ "`<br />`" ++ formatBytes (gzippedSize entry)
    ++ "` | 🆕 New entry|"
  /\ exists text,
       nth_error (fst (run rt report options)) 1 = Some (ConsoleLog text)
       /\ JS.includes text
            ("| " ++ title entry
             ++ " | `" ++ formatBytes 0 ++ "`<br />`" ++ formatBytes 0
             ++ "` | `" ++ formatBytes (minifiedSize entry)
             ++ "`<br />`" ++ formatBytes (gzippedSize entry)
             ++ "` | 🆕 New entry|").
Proof.
  intros Hroot Hin Hnew.
  split; [now apply changedRow_new|].
  destruct (changed_row_is_printed rt report options entry Hroot Hin)
    as (text & Hprinted & Hrow).
  exists text. split; [exact Hprinted|].
  now rewrite <- (changedRow_new (deltaFormat options)).
Qed.

(** C5. [getDirectionSymbol] returns the image of the decrease icon for
    a negative value, the image of the increase icon for a positive one
    and the empty string for zero. In the change cell of an entry whose
    diff is not empty, it is the callback given to the formatter, once
    for the minified diff and once for the gzip diff; with a formatter
    that applies the callback to the delta it is given, each half of the
    cell carries the symbol of its own delta. *)
Theorem direction_symbol_by_sign (value : Z) (fmt : DiffKey) (entry : Entry)
        (text : DiffByMetric -> DiffKey -> string) :
  (value < 0 ->
   getDirectionSymbol value
   = "<img aria-hidden=" ++ JS.dquote ++ "true" ++ JS.dquote ++ " src=" ++ JS.dquote
     ++ "https://microsoft.github.io/monosize/images/decrease.png" ++ JS.dquote ++ " />")
  /\ (value > 0 ->
      getDirectionSymbol value
      = "<img aria-hidden=" ++ JS.dquote ++ "true" ++ JS.dquote ++ " src=" ++ JS.dquote
        ++ "https://microsoft.github.io/monosize/images/increase.png" ++ JS.dquote ++ " />")
  /\ (value = 0 -> getDirectionSymbol value = "")
  /\ (empty (diff entry) = false ->
      difference formatDeltaFactory fmt entry
      = formatDelta formatDeltaFactory (minified (diff entry)) fmt
        ++ "<br />"
        ++ formatDelta formatDeltaFactory (gzip (diff entry)) fmt)
  /\ (empty (diff entry) = false ->
      difference (fun d k symbol => WithSymbol (text d k) (symbol (delta d))) fmt entry
      = "`" ++ text (minified (diff entry)) fmt ++ "` "
        ++ getDirectionSymbol (delta (minified (diff entry)))
        ++ "<br />"
        ++ "`" ++ text (gzip (diff entry)) fmt ++ "` "
        ++ getDirectionSymbol (delta (gzip (diff entry)))).
Proof.
  unfold getDirectionSymbol. repeat split.
  - intros Hneg. apply Z.ltb_lt in Hneg. now rewrite Hneg.
  - intros Hpos.
    assert (Hn : (value <? 0)%Z = false) by (apply Z.ltb_ge; lia).
    assert (Hp : (value >? 0)%Z = true) by (apply Z.gtb_lt; lia).
    now rewrite Hn, Hp.
  - intros ->. reflexivity.
  - intros Hfull. unfold difference. now rewrite Hfull, join_cells.
  - intros Hfull. unfold difference, formatDelta.
    rewrite Hfull, join_cells. now rewrite !append_assoc.
Qed.

(** C10. The row of an entry whose diff is empty does not depend on the
    stored deltas: two such entries with the same package name, name,
    path and sizes have the same row. *)
Theorem new_entry_row_ignores_deltas (fmt : DiffKey) (e1 e2 : Entry) :
  empty (diff e1) = true ->
  empty (diff e2) = true ->
  packageName e1 = packageName e2 ->
  name e1 = name e2 ->
  path e1 = path e2 ->
  minifiedSize e1 = minifiedSize e2 ->
  gzippedSize e1 = gzippedSize e2 ->
  row fmt e1 = row fmt e2.
Proof.
  intros H1 H2 Hpkg Hname Hpath Hmin Hgz.
  unfold changedRow, title, before, after, difference.
  now rewrite H1, H2, Hpkg, Hname, Hpath, Hmin, Hgz.
Qed.

End Rows.

(** C3 on the entry that went from 2000 to 1500 bytes minified and from
    800 to 600 bytes gzipped. *)
Lemma before_is_after_minus_delta_witness :
  exists text,
    nth_error (fst (Sample.run Sample.runtime [ Sample.steady; Sample.shrunk ]
                      (Sample.options false None))) 1
    = Some (ConsoleLog text)
    /\ JS.includes text
         ("| <samp>@scope/button</samp> <br /> "
          ++ "<abbr title='fixtures/Button.fixture.js'>Button</abbr>"
          ++ " | `2000 B`<br />`800 B` | `1500 B`<br />`600 B` | "
          ++ difference Sample.formatDeltaFactory KeyDelta Sample.shrunk ++ "|").
Proof.
  destruct (before_is_after_minus_delta Sample.formatBytes Sample.formatDeltaFactory
              Sample.getChangedEntriesInReport Sample.runtime
              [ Sample.steady; Sample.shrunk ] (Sample.options false None) Sample.shrunk)
    as [Hprinted _].
  - reflexivity.
  - simpl. left. reflexivity.
  - reflexivity.
  - reflexivity.
  - reflexivity.
  - reflexivity.
  - reflexivity.
  - exact Hprinted.
Defined.

(** C4 on an entry without a baseline. *)
Lemma new_entry_row_witness :
  exists text,
    nth_error (fst (Sample.run Sample.runtime [ Sample.fresh; Sample.steady ]
                      (Sample.options false None))) 1
    = Some (ConsoleLog text)
    /\ JS.includes text
         ("| <samp>@scope/card</samp> <br /> "
          ++ "<abbr title='fixtures/Card.fixture.js'>Card</abbr>"
          ++ " | `0 B`<br />`0 B` | `900 B`<br />`300 B` | 🆕 New entry|").
Proof.
  destruct (new_entry_row Sample.formatBytes Sample.formatDeltaFactory
              Sample.getChangedEntriesInReport Sample.runtime
              [ Sample.fresh; Sample.steady ] (Sample.options false None) Sample.fresh)
    as [_ Hprinted].
  - reflexivity.
  - simpl. left. reflexivity.
  - reflexivity.
  - exact Hprinted.
Defined.

(** C5 at -500, at 300 and at 0, and on the entry whose minified size grew
    while its gzipped size stayed. *)
Lemma direction_symbol_by_sign_witness :
  getDirectionSymbol (-500) = img "decrease.png"
  /\ getDirectionSymbol 300 = img "increase.png"
  /\ getDirectionSymbol 0 = ""
  /\ difference (fun d k symbol => WithSymbol (percent d) (symbol (delta d)))
       KeyPercent Sample.grown
     = "`30%` " ++ img "increase.png" ++ "<br />`0%` ".
Proof.
  pose proof (direction_symbol_by_sign Sample.formatDeltaFactory (-500) KeyPercent
                Sample.grown (fun d _ => percent d)) as Hneg.
  pose proof (direction_symbol_by_sign Sample.formatDeltaFactory 300 KeyPercent
                Sample.grown (fun d _ => percent d)) as Hpos.
  pose proof (direction_symbol_by_sign Sample.formatDeltaFactory 0 KeyPercent
                Sample.grown (fun d _ => percent d)) as Hzero.
  destruct Hneg as [Hneg _].
  destruct Hpos as [_ [Hpos _]].
  destruct Hzero as [_ [_ [Hzero [_ Hcell]]]].
  split; [|split; [|split]].
  - apply Hneg. lia.
  - apply Hpos. lia.
  - apply Hzero. reflexivity.
  - apply Hcell. reflexivity.
Defined.

(** C10 on an entry without a baseline and a copy of it with other deltas. *)
Lemma new_entry_row_ignores_deltas_witness :
  changedRow Sample.formatBytes Sample.formatDeltaFactory KeyDelta Sample.fresh
  = changedRow Sample.formatBytes Sample.formatDeltaFactory KeyDelta
      {| packageName := "@scope/card"; name := "Card"; path := "fixtures/Card.fixture.js";
         minifiedSize := 900; gzippedSize := 300;
         diff := {| empty := true;
                    minified := {| delta := -12345; percent := "100%" |};
                    gzip := {| delta := 7; percent := "100%" |} |} |}.
Proof.
  apply (new_entry_row_ignores_deltas Sample.formatBytes Sample.formatDeltaFactory);
    reflexivity.
Defined.

(** ** The lines of the report: the footer and the collapsible section *)

Section Lines.

Variable formatBytes : Z -> string.
Variable formatDeltaFactory : DiffByMetric -> DiffKey -> (Z -> string) -> DeltaOutput.
Variable getChangedEntriesInReport : Report -> Partition.

Local Abbreviation row := (changedRow formatBytes formatDeltaFactory).
Local Abbreviation lines := (fullReportOutput formatBytes formatDeltaFactory).
Local Abbreviation run :=
  (invoke formatBytes formatDeltaFactory getChangedEntriesInReport).

Lemma not_in_by_test (test : string -> bool) (x : string) (l : list string) :
  test x = true ->
  forallb (fun y => negb (test y)) l = true ->
  ~ In x l.
Proof.
  intros Hx Hall Hin. rewrite forallb_forall in Hall.
  specialize (Hall x Hin). now rewrite Hx in Hall.
Qed.

Lemma forallb_map_all {A} (g : string -> bool) (f : A -> string) (l : list A) :
  (forall a, g (f a) = true) -> forallb g (map f l) = true.
Proof.
  intros Hg. induction l as [|a l IH]; simpl; [reflexivity|].
  now rewrite Hg, IH.
Qed.

(** A test that accepts the fixed lines and every table row accepts all
    the lines pushed before the footer. *)
Lemma beforeFooter_all (g : string -> bool) (options : Options) (p : Partition) :
  (forall s, g ("| " ++ s) = true) ->
  g "## 📊 Bundle size report" = true ->
  g "" = true ->
  g "<details>" = true ->
  g "<summary>Unchanged fixtures</summary>" = true ->
  g "</details>" = true ->
  forallb g (beforeFooter formatBytes formatDeltaFactory options p) = true.
Proof.
  intros Hrow Htitle Hblank Hopen Hsummary Hclose.
  pose proof (Hrow "Package & Exports | Size (minified/GZIP) |") as Hhead1.
  pose proof (Hrow "----------------- | -------------------: |") as Hrule1.
  pose proof (Hrow "Package & Exports | Baseline (minified/GZIP) | PR    | Change     |")
    as Hhead2.
  pose proof (Hrow ":---------------- | -----------------------: | ----: | ---------: |")
    as Hrule2.
  cbn [append] in Hhead1, Hrule1, Hhead2, Hrule2.
  assert (Hrows : forallb g (map (row (deltaFormat options)) (changedEntries p)) = true)
    by (apply forallb_map_all; intros a; apply Hrow).
  assert (Hsection :
            forallb g (unchangedSection formatBytes (unchangedEntries p)) = true).
  { unfold unchangedSection. rewrite !forallb_app.
    rewrite (forallb_map_all g (unchangedRow formatBytes))
      by (intros a; apply Hrow).
    cbn [forallb].
    now rewrite Hopen, Hsummary, Hblank, Hclose, Hhead1, Hrule1. }
  unfold beforeFooter. rewrite !forallb_app, Hrows.
  cbn [forallb].
  rewrite Htitle, Hblank, Hhead2, Hrule2.
  destruct (showUnchanged options), (unchangedEntries p);
    rewrite ?Hsection; reflexivity.
Qed.

(** A fixed line that is no table row is absent from header, rows and
    footer: compare it with each of them. *)
Ltac absent_line l :=
  apply (not_in_by_test (String.eqb l)); [reflexivity|];
  rewrite !forallb_app, forallb_map_all by reflexivity; reflexivity.

Lemma footer_not_before (options : Options) (p : Partition) :
  ~ In (footerLine options) (beforeFooter formatBytes formatDeltaFactory options p).
Proof.
  apply (not_in_by_test (prefix "<sub>")).
  - reflexivity.
  - apply beforeFooter_all; reflexivity.
Qed.

Lemma footer_includes_commit (options : Options) :
  JS.includes (footerLine options) (commitSHA options).
Proof.
  unfold footerLine.
  exists ("<sub>🤖 This report was generated against <a href='" ++ repository options
          ++ "/commit/"),
         ("'>" ++ commitSHA options ++ "</a></sub>").
  now rewrite !append_assoc.
Qed.

Lemma footer_includes_repository (options : Options) :
  JS.includes (footerLine options) (repository options).
Proof.
  unfold footerLine.
  exists "<sub>🤖 This report was generated against <a href='",
         ("/commit/" ++ commitSHA options ++ "'>" ++ commitSHA options ++ "</a></sub>").
  reflexivity.
Qed.

Lemma footer_ends_with_tags (options : Options) :
  JS.endsWith (footerLine options) "</a></sub>".
Proof.
  unfold footerLine.
  exists ("<sub>🤖 This report was generated against <a href='" ++ repository options
          ++ "/commit/" ++ commitSHA options ++ "'>" ++ commitSHA options).
  now rewrite !append_assoc.
Qed.

Lemma no_changes_text_has_no_footer (options : Options) :
  ~ JS.endsWith ("## 📊 Bundle size report" ++ JS.LF ++ JS.LF ++ "✅ No changes found")
      (footerLine options).
Proof.
  intros Hends.
  pose proof (endsWith_trans _ _ _ Hends (footer_ends_with_tags options)) as Htags.
  apply endsWithb_complete in Htags. vm_compute in Htags. discriminate.
Qed.

Lemma beforeFooter_not_empty (options : Options) (p : Partition) :
  beforeFooter formatBytes formatDeltaFactory options p <> [].
Proof. unfold beforeFooter. discriminate. Qed.

(** C1, where it holds. The footer holds the commit identifier and the
    repository URL. When there is a changed entry, the footer is the
    last line pushed, after the lines of the table and of the
    collapsible section, none of which is the footer, and the text
    printed ends with a line feed and the footer. When there is no
    changed entry, no text printed ends with the footer. *)
Theorem footer_once_at_end rt report options :
  JS.truthy (findPackageRoot rt (moduleDir rt)) = true ->
  JS.includes (footerLine options) (commitSHA options)
  /\ JS.includes (footerLine options) (repository options)
  /\ (changedEntries (getChangedEntriesInReport report) <> [] ->
      lines options (getChangedEntriesInReport report)
      = (beforeFooter formatBytes formatDeltaFactory options
           (getChangedEntriesInReport report) ++ [ footerLine options ])%list
      /\ ~ In (footerLine options)
             (beforeFooter formatBytes formatDeltaFactory options
                (getChangedEntriesInReport report))
      /\ JS.endsWith (JS.join JS.LF (lines options (getChangedEntriesInReport report)))
           (JS.LF ++ footerLine options)
      /\ exists rest,
           fst (run rt report options)
           = FindPackageRoot (moduleDir rt)
             :: ConsoleLog (JS.join JS.LF (lines options (getChangedEntriesInReport report)))
             :: rest)
  /\ (changedEntries (getChangedEntriesInReport report) = [] ->
      forall text,
        In (ConsoleLog text) (fst (run rt report options)) ->
        ~ JS.endsWith text (footerLine options)).
Proof.
  intros Hroot.
  split; [apply footer_includes_commit|].
  split; [apply footer_includes_repository|].
  split.
  - intros Hsome.
    split; [now apply fullReportOutput_shape|].
    split; [apply footer_not_before|].
    split.
    + rewrite fullReportOutput_shape by assumption.
      rewrite join_snoc by apply beforeFooter_not_empty.
      eexists. reflexivity.
    + rewrite run_changes by assumption. eexists. reflexivity.
  - intros Hnone text Hin.
    rewrite run_no_changes in Hin by assumption.
    destruct Hin as [H|[H|[]]]; [discriminate|].
    injection H as <-. apply no_changes_text_has_no_footer.
Qed.

Lemma unchangedRow_cells (entry : Entry) :
  unchangedRow formatBytes entry
  = "| " ++ title entry ++ " | `" ++ formatBytes (minifiedSize entry) ++ "`<br />`"
    ++ formatBytes (gzippedSize entry) ++ "` |".
Proof.
  unfold unchangedRow, size. rewrite join_cells.
  now rewrite !append_assoc.
Qed.

(** C6. With at least one changed entry, the text printed is the lines
    of the report joined by line feeds. When [showUnchanged] is false
    these lines are the header, the table of changed entries, an empty
    line and the footer, and none of them opens, titles or closes a
    collapsible section. When [showUnchanged] is true and there is an
    unchanged entry, the section stands between the empty line and the
    footer, with one row per unchanged entry, in order, made of the
    title and of the current minified and gzipped sizes. *)
Theorem unchanged_section_by_flag rt report options :
  JS.truthy (findPackageRoot rt (moduleDir rt)) = true ->
  changedEntries (getChangedEntriesInReport report) <> [] ->
  nth_error (fst (run rt report options)) 1
  = Some (ConsoleLog (JS.join JS.LF (lines options (getChangedEntriesInReport report))))
  /\ (showUnchanged options = false ->
      lines options (getChangedEntriesInReport report)
      = ([ "## 📊 Bundle size report"; "";
           "| Package & Exports | Baseline (minified/GZIP) | PR    | Change     |";
           "| :---------------- | -----------------------: | ----: | ---------: |" ]
         ++ map (row (deltaFormat options))
              (changedEntries (getChangedEntriesInReport report))
         ++ [ ""; footerLine options ])%list
      /\ ~ In "<details>" (lines options (getChangedEntriesInReport report))
      /\ ~ In "<summary>Unchanged fixtures</summary>"
             (lines options (getChangedEntriesInReport report))
      /\ ~ In "</details>" (lines options (getChangedEntriesInReport report)))
  /\ (showUnchanged options = true ->
      unchangedEntries (getChangedEntriesInReport report) <> [] ->
      lines options (getChangedEntriesInReport report)
      = ([ "## 📊 Bundle size report"; "";
           "| Package & Exports | Baseline (minified/GZIP) | PR    | Change     |";
           "| :---------------- | -----------------------: | ----: | ---------: |" ]
         ++ map (row (deltaFormat options))
              (changedEntries (getChangedEntriesInReport report))
         ++ [ "";
              "<details>";
              "<summary>Unchanged fixtures</summary>";
              "";
              "| Package & Exports | Size (minified/GZIP) |";
              "| ----------------- | -------------------: |" ]
         ++ map (fun entry =>
                   ("| " ++ title entry ++ " | `" ++ formatBytes (minifiedSize entry)
                    ++ "`<br />`" ++ formatBytes (gzippedSize entry) ++ "` |")%string)
              (unchangedEntries (getChangedEntriesInReport report))
         ++ [ "</details>"; footerLine options ])%list).
Proof.
  intros Hroot Hsome.
  split; [now rewrite run_changes by assumption|].
  split.
  - intros Hhide.
    assert (Hlines :
              lines options (getChangedEntriesInReport report)
              = ([ "## 📊 Bundle size report"; "";
                   "| Package & Exports | Baseline (minified/GZIP) | PR    | Change     |";
                   "| :---------------- | -----------------------: | ----: | ---------: |" ]
                 ++ map (row (deltaFormat options))
                      (changedEntries (getChangedEntriesInReport report))
                 ++ [ ""; footerLine options ])%list).
    { rewrite fullReportOutput_shape by assumption.
      unfold beforeFooter. rewrite Hhide.
      rewrite <- !app_assoc. reflexivity. }
    split; [exact Hlines|].
    rewrite Hlines.
    repeat split.
    + absent_line "<details>".
    + absent_line "<summary>Unchanged fixtures</summary>".
    + absent_line "</details>".
  - intros Hshow Hrest.
    rewrite fullReportOutput_shape by assumption.
    unfold beforeFooter, unchangedSection. rewrite Hshow.
    destruct (unchangedEntries (getChangedEntriesInReport report)) as [|u rest] eqn:Hu;
      [congruence|].
    rewrite (map_ext _ _ unchangedRow_cells).
    rewrite <- !app_assoc. reflexivity.
Qed.

End Lines.

(** C1 does not extend to a report without changed entries: nothing
    printed ends with the footer. *)
Lemma footer_missing_without_changes :
  ~ exists text,
      In (ConsoleLog text)
         (fst (Sample.run Sample.runtime [ Sample.steady ] (Sample.options true None)))
      /\ JS.endsWith text (footerLine (Sample.options true None)).
Proof.
  intros [text [Hin Hends]].
  vm_compute in Hin.
  destruct Hin as [H|[H|[]]]; [discriminate|].
  injection H as <-.
  apply endsWithb_complete in Hends.
  vm_compute in Hends. discriminate.
Qed.

(** C1 on a report with one changed and one unchanged entry
    and on a report with one unchanged entry. *)
Lemma footer_once_at_end_witness :
  JS.endsWith
    (JS.join JS.LF
       (fullReportOutput Sample.formatBytes Sample.formatDeltaFactory
          (Sample.options true None)
          (Sample.getChangedEntriesInReport [ Sample.shrunk; Sample.steady ])))
    (JS.LF ++ "<sub>🤖 This report was generated against "
     ++ "<a href='https://github.com/microsoft/monosize/commit/3f2a9c1'>3f2a9c1</a></sub>")
  /\ forall text,
       In (ConsoleLog text)
          (fst (Sample.run Sample.runtime [ Sample.steady ] (Sample.options true None))) ->
       ~ JS.endsWith text (footerLine (Sample.options true None)).
Proof.
  split.
  - destruct (footer_once_at_end Sample.formatBytes Sample.formatDeltaFactory
                Sample.getChangedEntriesInReport Sample.runtime
                [ Sample.shrunk; Sample.steady ] (Sample.options true None) eq_refl)
      as (_ & _ & Hsome & _).
    destruct Hsome as (_ & _ & Hends & _); [discriminate|].
    exact Hends.
  - destruct (footer_once_at_end Sample.formatBytes Sample.formatDeltaFactory
                Sample.getChangedEntriesInReport Sample.runtime
                [ Sample.steady ] (Sample.options true None) eq_refl)
      as (_ & _ & _ & Hnone).
    apply Hnone. reflexivity.
Defined.

(** C6 on a report with one changed and two unchanged entries, with the
    flag off and with the flag on. *)
Lemma unchanged_section_by_flag_witness :
  ~ In "<details>"
      (fullReportOutput Sample.formatBytes Sample.formatDeltaFactory
         (Sample.options false None)
         (Sample.getChangedEntriesInReport [ Sample.steady; Sample.grown; Sample.steady ]))
  /\ fullReportOutput Sample.formatBytes Sample.formatDeltaFactory
       (Sample.options true None)
       (Sample.getChangedEntriesInReport [ Sample.steady; Sample.grown; Sample.steady ])
     = ([ "## 📊 Bundle size report"; "";
          "| Package & Exports | Baseline (minified/GZIP) | PR    | Change     |";
          "| :---------------- | -----------------------: | ----: | ---------: |" ]
        ++ map (changedRow Sample.formatBytes Sample.formatDeltaFactory KeyDelta)
             [ Sample.grown ]
        ++ [ "";
             "<details>";
             "<summary>Unchanged fixtures</summary>";
             "";
             "| Package & Exports | Size (minified/GZIP) |";
             "| ----------------- | -------------------: |" ]
        ++ map (fun entry =>
                  ("| " ++ title entry ++ " | `" ++ Sample.formatBytes (minifiedSize entry)
                   ++ "`<br />`" ++ Sample.formatBytes (gzippedSize entry) ++ "` |")%string)
             [ Sample.steady; Sample.steady ]
        ++ [ "</details>"; footerLine (Sample.options true None) ])%list.
Proof.
  split.
  - destruct (unchanged_section_by_flag Sample.formatBytes Sample.formatDeltaFactory
                Sample.getChangedEntriesInReport Sample.runtime
                [ Sample.steady; Sample.grown; Sample.steady ]
                (Sample.options false None) eq_refl)
      as (_ & Hhide & _); [discriminate|].
    destruct Hhide as (_ & Hopen & _); [reflexivity|].
    exact Hopen.
  - destruct (unchanged_section_by_flag Sample.formatBytes Sample.formatDeltaFactory
                Sample.getChangedEntriesInReport Sample.runtime
                [ Sample.steady; Sample.grown; Sample.steady ]
                (Sample.options true None) eq_refl)
      as (_ & _ & Hshow); [discriminate|].
    apply Hshow; [reflexivity | discriminate].
Defined.

(** ** Outcomes of an invocation: exceptions, writes, the error channel *)

Section Outcomes.

Variable formatBytes : Z -> string.
Variable formatDeltaFactory : DiffByMetric -> DiffKey -> (Z -> string) -> DeltaOutput.
Variable getChangedEntriesInReport : Report -> Partition.

Local Abbreviation lines := (fullReportOutput formatBytes formatDeltaFactory).
Local Abbreviation run :=
  (invoke formatBytes formatDeltaFactory getChangedEntriesInReport).

Lemma truthy_false_cases (v : option string) :
  JS.truthy v = false <-> v = None \/ v = Some "".
Proof.
  destruct v as [s|]; simpl.
  - split.
    + intros H. apply negb_false_iff, String.eqb_eq in H. subst s. now right.
    + intros [H|H]; [discriminate|]. injection H as ->. reflexivity.
  - split; [now left | reflexivity].
Qed.

Lemma truthy_some (file : string) :
  file <> "" -> JS.truthy (Some file) = true.
Proof.
  intros Hne. simpl. apply negb_true_iff. now apply String.eqb_neq.
Qed.

(** The invocation with changed entries, a path that is not empty and a
    call of [fs.writeFile] that is accepted. *)
Lemma run_with_file rt report options file err :
  JS.truthy (findPackageRoot rt (moduleDir rt)) = true ->
  changedEntries (getChangedEntriesInReport report) <> [] ->
  outputFile options = Some file ->
  file <> "" ->
  fsWrite rt file (JS.join JS.LF (lines options (getChangedEntriesInReport report)))
  = Completed err ->
  run rt report options
  = (FindPackageRoot (moduleDir rt)
     :: ConsoleLog (JS.join JS.LF (lines options (getChangedEntriesInReport report)))
     :: WriteFile file (JS.join JS.LF (lines options (getChangedEntriesInReport report)))
     :: fst (writeFileCallback file err),
     Normal tt).
Proof.
  intros Hroot Hsome Hfile Hne Hcall.
  rewrite run_changes by assumption.
  unfold writeRequest, writeEnd, writeCompletion. rewrite Hfile.
  apply String.eqb_neq in Hne. rewrite Hne, Hcall. reflexivity.
Qed.

(** The invocation with changed entries, a path that is not empty and a
    call of [fs.writeFile] that is rejected. *)
Lemma run_rejected rt report options file exception :
  JS.truthy (findPackageRoot rt (moduleDir rt)) = true ->
  changedEntries (getChangedEntriesInReport report) <> [] ->
  outputFile options = Some file ->
  file <> "" ->
  fsWrite rt file (JS.join JS.LF (lines options (getChangedEntriesInReport report)))
  = Rejected exception ->
  run rt report options
  = ([ FindPackageRoot (moduleDir rt);
       ConsoleLog (JS.join JS.LF (lines options (getChangedEntriesInReport report))) ],
     Throw exception).
Proof.
  intros Hroot Hsome Hfile Hne Hcall.
  rewrite run_changes by assumption.
  unfold writeRequest, writeEnd, writeCompletion. rewrite Hfile.
  apply String.eqb_neq in Hne. rewrite Hne, Hcall. reflexivity.
Qed.

(** The invocation with changed entries and no usable path. *)
Lemma run_without_file rt report options :
  JS.truthy (findPackageRoot rt (moduleDir rt)) = true ->
  changedEntries (getChangedEntriesInReport report) <> [] ->
  JS.truthy (outputFile options) = false ->
  run rt report options
  = ([ FindPackageRoot (moduleDir rt);
       ConsoleLog (JS.join JS.LF (lines options (getChangedEntriesInReport report))) ],
     Normal tt).
Proof.
  intros Hroot Hsome Hfile.
  rewrite run_changes by assumption.
  unfold writeRequest, writeEnd, writeCompletion.
  apply truthy_false_cases in Hfile as [-> | ->]; reflexivity.
Qed.

(** X1. An invocation throws exactly in two cases: the locator's result
    is falsy ([undefined], or the empty string); or there are changed
    entries, [outputFile] is a path that is not empty, and [fs.writeFile]
    rejects the call made with that path and the text printed. *)
Theorem throws_iff_root_falsy_or_write_rejected rt report options :
  (exists message, snd (run rt report options) = Throw message)
  <-> ((findPackageRoot rt (moduleDir rt) = None
        \/ findPackageRoot rt (moduleDir rt) = Some "")
       \/ (changedEntries (getChangedEntriesInReport report) <> []
           /\ exists file exception,
                outputFile options = Some file
                /\ file <> ""
                /\ fsWrite rt file
                     (JS.join JS.LF (lines options (getChangedEntriesInReport report)))
                   = Rejected exception)).
Proof.
  split.
  - intros [message Hthrow].
    destruct (JS.truthy (findPackageRoot rt (moduleDir rt))) eqn:Hroot;
      [|left; now apply truthy_false_cases].
    right.
    destruct (changedEntries (getChangedEntriesInReport report)) eqn:Hchanged.
    + rewrite run_no_changes in Hthrow by assumption. discriminate.
    + try rewrite <- Hchanged in *.
      assert (Hsome : changedEntries (getChangedEntriesInReport report) <> [])
        by (rewrite Hchanged; discriminate).
      split; [assumption|].
      rewrite run_changes in Hthrow by assumption.
      unfold writeEnd in Hthrow. cbn [snd] in Hthrow.
      destruct (outputFile options) as [file|]; [|discriminate].
      destruct (file =? "")%string eqn:Hfile; [discriminate|].
      destruct (fsWrite rt file _) as [exception|err] eqn:Hcall; [|discriminate].
      exists file, exception.
      split; [reflexivity|]. split; [now apply String.eqb_neq | exact Hcall].
  - intros [Hfalsy | (Hsome & file & exception & Hfile & Hne & Hcall)].
    + apply truthy_false_cases in Hfalsy.
      rewrite run_no_root by assumption. eexists. reflexivity.
    + destruct (JS.truthy (findPackageRoot rt (moduleDir rt))) eqn:Hroot.
      * rewrite (run_rejected rt report options file exception) by assumption.
        eexists. reflexivity.
      * rewrite run_no_root by assumption. eexists. reflexivity.
Qed.

(** X2. With a root, a changed entry and a path that is not empty, a write
    that succeeds gives, in order: the lookup, the report on standard
    output, the request for the path with the same text, and the two
    lines of the callback on standard output; nothing goes to the error
    channel and the invocation returns normally. *)
Theorem successful_write_trace rt report options file :
  JS.truthy (findPackageRoot rt (moduleDir rt)) = true ->
  changedEntries (getChangedEntriesInReport report) <> [] ->
  outputFile options = Some file ->
  file <> "" ->
  fsWrite rt file (JS.join JS.LF (lines options (getChangedEntriesInReport report)))
  = Completed None ->
  run rt report options
  = ([ FindPackageRoot (moduleDir rt);
       ConsoleLog (JS.join JS.LF (lines options (getChangedEntriesInReport report)));
       WriteFile file (JS.join JS.LF (lines options (getChangedEntriesInReport report)));
       ConsoleLog ("writing to file " ++ file);
       ConsoleLog "Content written to file successfully!" ],
     Normal tt).
Proof.
  intros Hroot Hsome Hfile Hne Hok.
  now rewrite (run_with_file rt report options file None) by assumption.
Qed.

(** X3. When [outputFile] is [undefined] or the empty string, an invocation
    with changed entries prints the report and does nothing else: no
    write is requested and the callback never logs. *)
Theorem falsy_path_no_write rt report options :
  JS.truthy (findPackageRoot rt (moduleDir rt)) = true ->
  changedEntries (getChangedEntriesInReport report) <> [] ->
  outputFile options = None \/ outputFile options = Some "" ->
  run rt report options
  = ([ FindPackageRoot (moduleDir rt);
       ConsoleLog (JS.join JS.LF (lines options (getChangedEntriesInReport report))) ],
     Normal tt).
Proof.
  intros Hroot Hsome Hfile.
  apply run_without_file; try assumption.
  now apply truthy_false_cases.
Qed.

Lemma callback_has_no_write file err f d :
  ~ In (WriteFile f d) (fst (writeFileCallback file err)).
Proof.
  unfold writeFileCallback.
  destruct err; simpl; intros [H|[H|[]]]; discriminate.
Qed.

(** The cases of an invocation that passes the precondition and has
    changed entries. *)
Lemma run_changes_cases rt report options :
  JS.truthy (findPackageRoot rt (moduleDir rt)) = true ->
  changedEntries (getChangedEntriesInReport report) <> [] ->
  (exists file err,
      outputFile options = Some file /\ file <> ""
      /\ fsWrite rt file (JS.join JS.LF (lines options (getChangedEntriesInReport report)))
         = Completed err
      /\ fst (run rt report options)
         = FindPackageRoot (moduleDir rt)
           :: ConsoleLog (JS.join JS.LF (lines options (getChangedEntriesInReport report)))
           :: WriteFile file
                (JS.join JS.LF (lines options (getChangedEntriesInReport report)))
           :: fst (writeFileCallback file err))
  \/ fst (run rt report options)
     = [ FindPackageRoot (moduleDir rt);
         ConsoleLog (JS.join JS.LF (lines options (getChangedEntriesInReport report))) ].
Proof.
  intros Hroot Hsome.
  destruct (JS.truthy (outputFile options)) eqn:Htruthy.
  - destruct (outputFile options) as [file|] eqn:Hfile; [|discriminate].
    assert (Hne : file <> "") by (intros ->; discriminate).
    destruct (fsWrite rt file
                (JS.join JS.LF (lines options (getChangedEntriesInReport report))))
      as [exception|err] eqn:Hcall.
    + right. now rewrite (run_rejected rt report options file exception).
    + left. exists file, err.
      repeat (split; [assumption || reflexivity|]).
      now rewrite (run_with_file rt report options file err).
  - right. now rewrite run_without_file.
Qed.

(** X4. Every write an invocation requests is for the path of
    [outputFile], which is then not empty, and carries the text just
    printed on standard output; it is the third event, there are changed
    entries, and no second write follows. *)
Theorem write_targets_configured_file rt report options file data :
  In (WriteFile file data) (fst (run rt report options)) ->
  outputFile options = Some file
  /\ file <> ""
  /\ changedEntries (getChangedEntriesInReport report) <> []
  /\ data = JS.join JS.LF (lines options (getChangedEntriesInReport report))
  /\ exists callback,
       fst (run rt report options)
       = FindPackageRoot (moduleDir rt) :: ConsoleLog data :: WriteFile file data :: callback
       /\ forall f d, ~ In (WriteFile f d) callback.
Proof.
  intros Hin.
  destruct (JS.truthy (findPackageRoot rt (moduleDir rt))) eqn:Hroot.
  - destruct (changedEntries (getChangedEntriesInReport report)) eqn:Hchanged.
    + rewrite run_no_changes in Hin by assumption.
      destruct Hin as [H|[H|[]]]; discriminate.
    + try rewrite <- Hchanged in *.
      assert (Hsome : changedEntries (getChangedEntriesInReport report) <> [])
        by (rewrite Hchanged; discriminate).
      destruct (run_changes_cases rt report options Hroot Hsome)
        as [(path & err & Hfile & Hne & Hcall & Htrace) | Htrace];
        rewrite Htrace in *.
      * destruct Hin as [H|[H|[H|H]]]; try discriminate.
        -- injection H as -> ->.
           repeat (split; [assumption || reflexivity|]).
           eexists. split; [reflexivity|].
           intros f d. apply callback_has_no_write.
        -- now apply callback_has_no_write in H.
      * destruct Hin as [H|[H|[]]]; discriminate.
  - rewrite run_no_root in Hin by assumption.
    destruct Hin as [H|[]]; discriminate.
Qed.

(** X5. A line reaches the error channel only when a write was requested
    and failed: the line is the fixed prefix followed by the error of
    that write. *)
Theorem error_channel_only_after_failed_write rt report options message :
  In (ConsoleError message) (fst (run rt report options)) ->
  exists file data err,
    In (WriteFile file data) (fst (run rt report options))
    /\ fsWrite rt file data = Completed (Some err)
    /\ message = "Error writing to file: " ++ err.
Proof.
  intros Hin.
  destruct (JS.truthy (findPackageRoot rt (moduleDir rt))) eqn:Hroot.
  - destruct (changedEntries (getChangedEntriesInReport report)) eqn:Hchanged.
    + rewrite run_no_changes in Hin by assumption.
      destruct Hin as [H|[H|[]]]; discriminate.
    + try rewrite <- Hchanged in *.
      assert (Hsome : changedEntries (getChangedEntriesInReport report) <> [])
        by (rewrite Hchanged; discriminate).
      destruct (run_changes_cases rt report options Hroot Hsome)
        as [(path & outcome & Hfile & Hne & Hcall & Htrace) | Htrace];
        rewrite Htrace in *.
      * destruct Hin as [H|[H|[H|H]]]; try discriminate.
        unfold writeFileCallback in H.
        destruct outcome as [err|].
        -- destruct H as [H|[H|[]]]; [discriminate|].
           injection H as <-.
           exists path, (JS.join JS.LF (lines options (getChangedEntriesInReport report))), err.
           split; [right; right; left; reflexivity|].
           split; [assumption | reflexivity].
        -- destruct H as [H|[H|[]]]; discriminate.
      * destruct Hin as [H|[H|[]]]; discriminate.
  - rewrite run_no_root in Hin by assumption.
    destruct Hin as [H|[]]; discriminate.
Qed.

End Outcomes.

(** ** The report as a whole: header, rows, options without effect *)

Section WholeReport.

Variable formatBytes : Z -> string.
Variable formatDeltaFactory : DiffByMetric -> DiffKey -> (Z -> string) -> DeltaOutput.
Variable getChangedEntriesInReport : Report -> Partition.

Local Abbreviation row := (changedRow formatBytes formatDeltaFactory).
Local Abbreviation lines := (fullReportOutput formatBytes formatDeltaFactory).
Local Abbreviation run :=
  (invoke formatBytes formatDeltaFactory getChangedEntriesInReport).

(** X6. Whenever the root is found, the second event of the invocation is
    the report on standard output, and its text begins with the title
    line and an empty line, with or without changed entries. *)
Theorem report_begins_with_title rt report options :
  JS.truthy (findPackageRoot rt (moduleDir rt)) = true ->
  exists rest,
    nth_error (fst (run rt report options)) 1
    = Some (ConsoleLog ("## 📊 Bundle size report" ++ JS.LF ++ JS.LF ++ rest)).
Proof.
  intros Hroot.
  destruct (changedEntries (getChangedEntriesInReport report)) eqn:Hchanged.
  - rewrite run_no_changes by assumption.
    exists "✅ No changes found". reflexivity.
  - assert (Hsome : changedEntries (getChangedEntriesInReport report) <> [])
      by congruence.
    rewrite run_changes by assumption.
    rewrite fullReportOutput_shape by assumption.
    unfold beforeFooter. cbn [app nth_error].
    rewrite !join_cons2. eexists. reflexivity.
Qed.

Lemma withUnchangedSection_none (show : bool) (out : list string) :
  withUnchangedSection formatBytes show [] out = out.
Proof.
  rewrite withUnchangedSection_shape. destruct show; apply app_nil_r.
Qed.

(** X7. When the classifier returns no unchanged entry, [showUnchanged]
    has no effect: the invocation is the same with the flag on and off. *)
Theorem flag_without_unchanged_entries rt report sha repo fmt file :
  unchangedEntries (getChangedEntriesInReport report) = [] ->
  run rt report (mkOptions sha repo true fmt file)
  = run rt report (mkOptions sha repo false fmt file).
Proof.
  intros Hnone.
  unfold invoke, markdownReporter. cbn [showUnchanged deltaFormat outputFile].
  rewrite Hnone, !withUnchangedSection_none. reflexivity.
Qed.

(** X8. The rows of the table come in the order of the classifier: when a
    changed entry stands before another in [changedEntries], its row
    stands before the row of the other in the text the invocation
    prints. *)
Theorem changed_rows_keep_order rt report options
        (front middle back : list Entry) (first second : Entry) :
  JS.truthy (findPackageRoot rt (moduleDir rt)) = true ->
  changedEntries (getChangedEntriesInReport report)
  = (front ++ first :: middle ++ second :: back)%list ->
  exists a b c,
    nth_error (fst (run rt report options)) 1
    = Some (ConsoleLog (a ++ row (deltaFormat options) first
                        ++ b ++ row (deltaFormat options) second ++ c)).
Proof.
  intros Hroot Hsplit.
  assert (Hsome : changedEntries (getChangedEntriesInReport report) <> []).
  { rewrite Hsplit. destruct front; discriminate. }
  rewrite run_changes by assumption. cbn [fst nth_error].
  rewrite fullReportOutput_shape by assumption.
  unfold beforeFooter. rewrite Hsplit, !map_app. cbn [map].
  rewrite map_app. cbn [map].
  repeat (rewrite <- app_assoc; cbn [app]).
  match goal with
  | |- context [JS.join JS.LF
                  (?h1 :: ?h2 :: ?h3 :: ?h4 :: (?F ++ ?x :: ?M ++ ?y :: ?R)%list)] =>
      destruct (join_keeps_order JS.LF x y (h1 :: h2 :: h3 :: h4 :: F) M R)
        as (a & b & c & Hjoin);
      cbn [app] in Hjoin; rewrite Hjoin
  end.
  exists a, b, c. reflexivity.
Qed.

(** X9. With a changed entry, the text printed is the join of an array of
    strings that holds six fixed strings and one per changed entry; the
    collapsible section, when rendered, adds six fixed strings and one
    per unchanged entry. *)
Theorem report_line_count rt report options :
  JS.truthy (findPackageRoot rt (moduleDir rt)) = true ->
  changedEntries (getChangedEntriesInReport report) <> [] ->
  nth_error (fst (run rt report options)) 1
  = Some (ConsoleLog (JS.join JS.LF (lines options (getChangedEntriesInReport report))))
  /\ length (lines options (getChangedEntriesInReport report))
     = (6 + length (changedEntries (getChangedEntriesInReport report))
        + match showUnchanged options,
                unchangedEntries (getChangedEntriesInReport report) with
          | true, _ :: _ =>
              6 + length (unchangedEntries (getChangedEntriesInReport report))
          | _, _ => 0
          end)%nat.
Proof.
  intros Hroot Hsome.
  split; [now rewrite run_changes by assumption|].
  rewrite fullReportOutput_shape by assumption.
  unfold beforeFooter, unchangedSection.
  destruct (showUnchanged options), (unchangedEntries (getChangedEntriesInReport report));
    rewrite ?length_app, ?length_map; cbn [length]; rewrite ?length_map; lia.
Qed.

Lemma new_rows_ignore_formatter factory1 factory2 fmt1 fmt2 (entries : list Entry) :
  (forall entry, In entry entries -> empty (diff entry) = true) ->
  map (changedRow formatBytes factory1 fmt1) entries
  = map (changedRow formatBytes factory2 fmt2) entries.
Proof.
  intros Hnew. apply map_ext_in. intros entry Hin.
  unfold changedRow, difference. now rewrite (Hnew entry Hin).
Qed.

(** X10. When every changed entry is a new entry, the invocation does not
    depend on [deltaFormat] nor on the delta formatter. *)
Theorem new_entries_ignore_delta_format factory1 factory2 rt report sha repo show
        fmt1 fmt2 file :
  (forall entry,
      In entry (changedEntries (getChangedEntriesInReport report)) ->
      empty (diff entry) = true) ->
  invoke formatBytes factory1 getChangedEntriesInReport rt report
    (mkOptions sha repo show fmt1 file)
  = invoke formatBytes factory2 getChangedEntriesInReport rt report
      (mkOptions sha repo show fmt2 file).
Proof.
  intros Hnew.
  assert (Hlines :
            withChangedTable formatBytes factory1 fmt1
              (changedEntries (getChangedEntriesInReport report))
              [ "## 📊 Bundle size report"; "" ]
            = withChangedTable formatBytes factory2 fmt2
                (changedEntries (getChangedEntriesInReport report))
                [ "## 📊 Bundle size report"; "" ]).
  { destruct (changedEntries (getChangedEntriesInReport report)) eqn:Hchanged;
      [reflexivity|].
    rewrite !withChangedTable_shape by discriminate.
    now rewrite (new_rows_ignore_formatter factory1 factory2 fmt1 fmt2). }
  unfold invoke, markdownReporter. cbn [showUnchanged deltaFormat outputFile].
  rewrite Hlines. reflexivity.
Qed.

(** X11. The text printed holds the row of every changed entry; with
    [showUnchanged], it holds the row of every unchanged entry too. *)
Theorem printed_text_holds_every_row rt report options :
  JS.truthy (findPackageRoot rt (moduleDir rt)) = true ->
  changedEntries (getChangedEntriesInReport report) <> [] ->
  exists text,
    nth_error (fst (run rt report options)) 1 = Some (ConsoleLog text)
    /\ (forall entry,
           In entry (changedEntries (getChangedEntriesInReport report)) ->
           JS.includes text (row (deltaFormat options) entry))
    /\ (showUnchanged options = true ->
        forall entry,
          In entry (unchangedEntries (getChangedEntriesInReport report)) ->
          JS.includes text (unchangedRow formatBytes entry)).
Proof.
  intros Hroot Hsome.
  exists (JS.join JS.LF (lines options (getChangedEntriesInReport report))).
  split; [now rewrite run_changes by assumption|].
  rewrite fullReportOutput_shape by assumption.
  split.
  - intros entry Hin. apply join_includes.
    apply in_or_app. left. unfold beforeFooter.
    apply in_or_app. right. apply in_or_app. left. now apply in_map.
  - intros Hshow entry Hin. apply join_includes.
    apply in_or_app. left. unfold beforeFooter. rewrite Hshow.
    do 3 (apply in_or_app; right).
    destruct (unchangedEntries (getChangedEntriesInReport report)) eqn:Hu;
      [destruct Hin|].
    unfold unchangedSection.
    apply in_or_app. right. apply in_or_app. left. now apply in_map.
Qed.

End WholeReport.

(** X1 where the locator answers with the empty string, and where the
    root is found and the path holds a NUL character. *)
Lemma throws_iff_root_falsy_or_write_rejected_witness :
  (exists message,
      snd (Sample.run (mkRuntime Sample.here (fun _ => Some "")
                         (fun _ _ => Completed None))
             [ Sample.shrunk ] (Sample.options false None))
      = Throw message)
  /\ (exists message,
         snd (Sample.run Sample.node [ Sample.shrunk ]
                (Sample.options false (Some Sample.nulPath)))
         = Throw message).
Proof.
  split.
  - apply (proj2 (throws_iff_root_falsy_or_write_rejected Sample.formatBytes
                    Sample.formatDeltaFactory Sample.getChangedEntriesInReport
                    (mkRuntime Sample.here (fun _ => Some "")
                       (fun _ _ => Completed None))
                    [ Sample.shrunk ] (Sample.options false None))).
    left. right. reflexivity.
  - apply (proj2 (throws_iff_root_falsy_or_write_rejected Sample.formatBytes
                    Sample.formatDeltaFactory Sample.getChangedEntriesInReport
                    Sample.node [ Sample.shrunk ]
                    (Sample.options false (Some Sample.nulPath)))).
    right. split; [discriminate|].
    eexists Sample.nulPath, _.
    split; [reflexivity|]. split; [discriminate | reflexivity].
Defined.

(** X2 where the write succeeds. *)
Lemma successful_write_trace_witness :
  exists text,
    Sample.run Sample.runtime [ Sample.shrunk ] (Sample.options false (Some "report.md"))
    = ([ FindPackageRoot Sample.here;
         ConsoleLog text;
         WriteFile "report.md" text;
         ConsoleLog "writing to file report.md";
         ConsoleLog "Content written to file successfully!" ],
       Normal tt).
Proof.
  eexists.
  apply (successful_write_trace Sample.formatBytes Sample.formatDeltaFactory
           Sample.getChangedEntriesInReport Sample.runtime [ Sample.shrunk ]
           (Sample.options false (Some "report.md")) "report.md").
  - reflexivity.
  - discriminate.
  - reflexivity.
  - discriminate.
  - reflexivity.
Defined.

(** X3 where the path is the empty string. *)
Lemma falsy_path_no_write_witness :
  exists text,
    Sample.run Sample.readOnly [ Sample.shrunk ] (Sample.options false (Some ""))
    = ([ FindPackageRoot Sample.here; ConsoleLog text ], Normal tt).
Proof.
  eexists.
  apply (falsy_path_no_write Sample.formatBytes Sample.formatDeltaFactory
           Sample.getChangedEntriesInReport Sample.readOnly [ Sample.shrunk ]
           (Sample.options false (Some ""))).
  - reflexivity.
  - discriminate.
  - right. reflexivity.
Defined.

(** X4 on the write of a report with one changed entry. *)
Lemma write_targets_configured_file_witness :
  exists data,
    In (WriteFile "report.md" data)
       (fst (Sample.run Sample.runtime [ Sample.shrunk ]
               (Sample.options false (Some "report.md"))))
    /\ outputFile (Sample.options false (Some "report.md")) = Some "report.md"
    /\ data = JS.join JS.LF
                (fullReportOutput Sample.formatBytes Sample.formatDeltaFactory
                   (Sample.options false (Some "report.md"))
                   (Sample.getChangedEntriesInReport [ Sample.shrunk ])).
Proof.
  assert (Hin : In (WriteFile "report.md"
                      (JS.join JS.LF
                         (fullReportOutput Sample.formatBytes Sample.formatDeltaFactory
                            (Sample.options false (Some "report.md"))
                            (Sample.getChangedEntriesInReport [ Sample.shrunk ]))))
                   (fst (Sample.run Sample.runtime [ Sample.shrunk ]
                           (Sample.options false (Some "report.md"))))).
  { right. right. left. reflexivity. }
  eexists. split; [exact Hin|].
  destruct (write_targets_configured_file Sample.formatBytes Sample.formatDeltaFactory
              Sample.getChangedEntriesInReport Sample.runtime [ Sample.shrunk ]
              (Sample.options false (Some "report.md")) "report.md" _ Hin)
    as (Hpath & _ & _ & Hdata & _).
  split; [exact Hpath | exact Hdata].
Defined.

(** X5 where every write fails. *)
Lemma error_channel_only_after_failed_write_witness :
  exists file data err,
    In (WriteFile file data)
       (fst (Sample.run Sample.readOnly [ Sample.shrunk ]
               (Sample.options false (Some "report.md"))))
    /\ fsWrite Sample.readOnly file data = Completed (Some err)
    /\ "Error writing to file: Error: ENOENT: no such file or directory, open 'report.md'"
       = "Error writing to file: " ++ err.
Proof.
  apply (error_channel_only_after_failed_write Sample.formatBytes
           Sample.formatDeltaFactory Sample.getChangedEntriesInReport Sample.readOnly
           [ Sample.shrunk ] (Sample.options false (Some "report.md"))).
  do 4 right. left. reflexivity.
Defined.

(** X6 on a report with changed entries. *)
Lemma report_begins_with_title_witness :
  exists rest,
    nth_error (fst (Sample.run Sample.runtime [ Sample.grown; Sample.steady ]
                      (Sample.options true None))) 1
    = Some (ConsoleLog ("## 📊 Bundle size report" ++ JS.LF ++ JS.LF ++ rest)).
Proof.
  apply (report_begins_with_title Sample.formatBytes Sample.formatDeltaFactory
           Sample.getChangedEntriesInReport Sample.runtime).
  reflexivity.
Defined.

(** X7 on a report whose entries all changed. *)
Lemma flag_without_unchanged_entries_witness :
  Sample.run Sample.runtime [ Sample.shrunk; Sample.fresh ] (Sample.options true None)
  = Sample.run Sample.runtime [ Sample.shrunk; Sample.fresh ] (Sample.options false None).
Proof.
  apply (flag_without_unchanged_entries Sample.formatBytes Sample.formatDeltaFactory
           Sample.getChangedEntriesInReport Sample.runtime
           [ Sample.shrunk; Sample.fresh ]).
  reflexivity.
Defined.

(** X8 on a report in which an unchanged entry stands between the two
    changed ones. *)
Lemma changed_rows_keep_order_witness :
  exists a b c,
    nth_error (fst (Sample.run Sample.runtime
                      [ Sample.shrunk; Sample.steady; Sample.grown ]
                      (Sample.options true None))) 1
    = Some (ConsoleLog
              (a ++ changedRow Sample.formatBytes Sample.formatDeltaFactory KeyDelta
                      Sample.shrunk
               ++ b ++ changedRow Sample.formatBytes Sample.formatDeltaFactory KeyDelta
                         Sample.grown
               ++ c)).
Proof.
  apply (changed_rows_keep_order Sample.formatBytes Sample.formatDeltaFactory
           Sample.getChangedEntriesInReport Sample.runtime
           [ Sample.shrunk; Sample.steady; Sample.grown ] (Sample.options true None)
           [] [] [] Sample.shrunk Sample.grown).
  - reflexivity.
  - reflexivity.
Defined.

(** X9 on two changed and one unchanged entries, with the section: 6 + 2
    and 6 + 1 strings. *)
Lemma report_line_count_witness :
  length
    (fullReportOutput Sample.formatBytes Sample.formatDeltaFactory
       (Sample.options true None)
       (Sample.getChangedEntriesInReport [ Sample.shrunk; Sample.steady; Sample.grown ]))
  = 15%nat.
Proof.
  apply (report_line_count Sample.formatBytes Sample.formatDeltaFactory
           Sample.getChangedEntriesInReport Sample.runtime
           [ Sample.shrunk; Sample.steady; Sample.grown ] (Sample.options true None)).
  - reflexivity.
  - discriminate.
Defined.

(** X10 on a report whose only changed entry is new, with the sample
    formatter and one that returns fixed text. *)
Lemma new_entries_ignore_delta_format_witness :
  invoke Sample.formatBytes Sample.formatDeltaFactory Sample.getChangedEntriesInReport
    Sample.runtime [ Sample.fresh; Sample.steady ]
    (mkOptions "3f2a9c1" "https://github.com/microsoft/monosize" true KeyDelta None)
  = invoke Sample.formatBytes (fun _ _ _ => PlainText "n/a")
      Sample.getChangedEntriesInReport
      Sample.runtime [ Sample.fresh; Sample.steady ]
      (mkOptions "3f2a9c1" "https://github.com/microsoft/monosize" true KeyPercent None).
Proof.
  apply (new_entries_ignore_delta_format Sample.formatBytes Sample.getChangedEntriesInReport
           Sample.formatDeltaFactory (fun _ _ _ => PlainText "n/a")).
  intros entry Hin. simpl in Hin.
  destruct Hin as [<-|[]]. reflexivity.
Defined.

(** X11 on a report with one changed and one unchanged entry. *)
Lemma printed_text_holds_every_row_witness :
  exists text,
    nth_error (fst (Sample.run Sample.runtime [ Sample.grown; Sample.steady ]
                      (Sample.options true None))) 1
    = Some (ConsoleLog text)
    /\ JS.includes text
         (changedRow Sample.formatBytes Sample.formatDeltaFactory KeyDelta Sample.grown)
    /\ JS.includes text (unchangedRow Sample.formatBytes Sample.steady).
Proof.
  destruct (printed_text_holds_every_row Sample.formatBytes Sample.formatDeltaFactory
              Sample.getChangedEntriesInReport Sample.runtime
              [ Sample.grown; Sample.steady ] (Sample.options true None))
    as (text & Hprinted & Hchanged & Hunchanged).
  - reflexivity.
  - discriminate.
  - exists text. split; [exact Hprinted|]. split.
    + apply Hchanged. left. reflexivity.
    + apply Hunchanged; [reflexivity|]. left. reflexivity.
Defined.
